(** * Catalog normalization and fast-search indexing engine

    A shallow embedding of [Core/optimization_module.py],
    [Core/database_inspector_module.py] and [Core/quick_check_module.py],
    and of the readiness check and the optimization step of
    [Modules/imss_clean_module.py], followed by the properties of the engine
    that the specification states and by further properties of the code.

    Python values are modelled as the code has them: a [str] is a sequence of
    Unicode code points, the SQLite store is a record of its three tables and
    its index catalogue, a raised exception is an explicit outcome, and the
    percentages are IEEE-754 doubles. *)

From Stdlib Require Import ZArith NArith Ascii String.
From Stdlib Require Import PrimFloat FloatOps SpecFloat Uint63.
From stdpp Require Import base option list sorting gmap.

Set Default Proof Using "Type".
Local Open Scope N_scope.

(** ** Python strings *)

Module PyStr.

(** A character is its Unicode code point. *)
Definition char := N.
Definition str := list char.

(** [py "abc"] is the Python literal ['abc'], for ASCII literals; code
    points above 127 are written as numbers. *)
Definition py (s : string) : str :=
  map (fun a : ascii => N_of_ascii a) (list_ascii_of_string s).
Arguments py s%_string.

Definition in_range (lo hi c : N) : bool := (lo <=? c) && (c <=? hi).

(** [str.isspace] and the class [\s] of [re]: the Unicode white space. *)
Definition is_space (c : char) : bool :=
  in_range 9 13 c || in_range 28 32 c || (c =? 133) || (c =? 160)
  || (c =? 5760) || in_range 8192 8202 c || in_range 8232 8233 c
  || (c =? 8239) || (c =? 8287) || (c =? 12288).

(** The class [\d]. The decimal digits of the Basic Latin and Latin-1
    blocks; the digits of other scripts are outside the modelled alphabet. *)
Definition is_digit (c : char) : bool := in_range 48 57 c.

(** The class [\w]: alphanumeric characters and the underscore. It is exact
    on Basic Latin and Latin-1 Supplement (the alphabet of the Spanish
    catalogue) and on the Greek mu of the unit pattern; the other code
    points are taken as symbols. *)
Definition is_word (c : char) : bool :=
  in_range 48 57 c || in_range 65 90 c || (c =? 95) || in_range 97 122 c
  || (c =? 170) || in_range 178 179 c || (c =? 181) || in_range 185 186 c
  || in_range 188 190 c || in_range 192 214 c || in_range 216 246 c
  || in_range 248 255 c || (c =? 376) || (c =? 924) || (c =? 956).

(** [str.lower], one code point at a time. *)
Definition lower_char (c : char) : char :=
  if in_range 65 90 c || in_range 192 214 c || in_range 216 222 c then c + 32
  else if c =? 376 then 255
  else if c =? 924 then 956
  else c.

Definition lower (s : str) : str := map lower_char s.

(** [str.upper]; the sharp s becomes two letters. *)
Definition upper_char (c : char) : str :=
  if in_range 97 122 c || in_range 224 246 c || in_range 248 254 c then [c - 32]
  else if c =? 223 then [83; 83]
  else if c =? 255 then [376]
  else if (c =? 181) || (c =? 956) then [924]
  else [c].

Definition upper (s : str) : str := flat_map upper_char s.

(** [str.strip()] *)
Fixpoint lstrip (s : str) : str :=
  match s with
  | c :: s' => if is_space c then lstrip s' else s
  | [] => []
  end.

Definition rstrip (s : str) : str := rev (lstrip (rev s)).
Definition strip (s : str) : str := rstrip (lstrip s).

(** Truth value of a string: the empty string is false. *)
Definition truthy (s : str) : bool :=
  match s with [] => false | _ => true end.

(** [a or b] on strings. *)
Definition or_else (a b : str) : str := if truthy a then a else b.

(** [a or b] where [a] may be [None]. *)
Definition opt_or_else (a : option str) (b : str) : str :=
  match a with
  | Some a' => or_else a' b
  | None => b
  end.

Definition eqb (a b : str) : bool := bool_decide (a = b).

Fixpoint starts_with (p s : str) : bool :=
  match p, s with
  | [], _ => true
  | a :: p', b :: s' => (a =? b) && starts_with p' s'
  | _ :: _, [] => false
  end.

(** [sep.join(l)] *)
Fixpoint join (sep : str) (l : list str) : str :=
  match l with
  | [] => []
  | [x] => x
  | x :: l' => x ++ sep ++ join sep l'
  end.

(** [s.split(sep)] for a non-empty separator: the fields between the
    occurrences of [sep], found from left to right without overlap. [skip]
    counts the characters of an occurrence still to be passed over and
    [cur] is the field being read. *)
Fixpoint split_go (sep : str) (skip : nat) (cur : str) (s : str) : list str :=
  match s with
  | [] => [cur]
  | c :: s' =>
      match skip with
      | S k => split_go sep k cur s'
      | O =>
          if starts_with sep s
          then cur :: split_go sep (Nat.pred (length sep)) [] s'
          else split_go sep O (cur ++ [c]) s'
      end
  end.

Definition split (sep : str) (s : str) : list str := split_go sep O [] s.

(** [sep in s] *)
Fixpoint contains (sep : str) (s : str) : bool :=
  starts_with sep s ||
  match s with
  | [] => false
  | _ :: s' => contains sep s'
  end.

End PyStr.

Import PyStr.

(** ** Regular expressions of the [re] module *)

Module Re.

(** The fragment of the pattern language that the canonicalizer uses. *)
Inductive regex : Type :=
| Lit (s : str)                 (* literal text *)
| Class (p : char -> bool)      (* one character of a class *)
| Seq (r1 r2 : regex)           (* r1 r2 *)
| Alt (r1 r2 : regex)           (* r1|r2 *)
| Opt (r : regex)               (* r? *)
| Star (r : regex)              (* r* *)
| Plus (r : regex)              (* r+ *)
| WordBoundary.                 (* \b *)

(** Alternation of literals, [(w1|w2|...)]. *)
Fixpoint words (ws : list str) : regex :=
  match ws with
  | [] => Class (fun _ => false)
  | [w] => Lit w
  | w :: ws' => Alt (Lit w) (words ws')
  end.

Definition word_before (prev : option char) : bool :=
  match prev with Some c => is_word c | None => false end.

Definition word_after (s : str) : bool :=
  match s with c :: _ => is_word c | [] => false end.

Fixpoint skip_lit (p s : str) (prev : option char) : option (option char * str) :=
  match p, s with
  | [], _ => Some (prev, s)
  | a :: p', b :: s' => if a =? b then skip_lit p' s' (Some b) else None
  | _ :: _, [] => None
  end.

(** A position in the subject: the character before it, and what follows. *)
Definition pos : Type := option char * str.

(** Backtracking matcher, as [re] does it: alternatives are tried in order,
    quantifiers are greedy, the first way to match the whole pattern wins.
    [k] is the rest of the pattern; the result is the position where the
    match ends. A repetition only continues after an iteration that
    consumed text. *)
Fixpoint matches (r : regex) (prev : option char) (s : str)
    (k : pos -> option pos) : option pos :=
  match r with
  | Lit p =>
      match skip_lit p s prev with
      | Some q => k q
      | None => None
      end
  | Class p =>
      match s with
      | c :: s' => if p c then k (Some c, s') else None
      | [] => None
      end
  | Seq r1 r2 =>
      matches r1 prev s (fun q => matches r2 q.1 q.2 k)
  | Alt r1 r2 =>
      match matches r1 prev s k with
      | Some q => Some q
      | None => matches r2 prev s k
      end
  | Opt r1 =>
      match matches r1 prev s k with
      | Some q => Some q
      | None => k (prev, s)
      end
  | Star r1 =>
      (fix loop (n : nat) (prev : option char) (s : str) : option pos :=
         match n with
         | O => k (prev, s)
         | S n' =>
             match matches r1 prev s
                     (fun q => if (length q.2 <? length s)%nat
                               then loop n' q.1 q.2 else None) with
             | Some q => Some q
             | None => k (prev, s)
             end
         end) (length s) prev s
  | Plus r1 =>
      matches r1 prev s (fun q =>
        (fix loop (n : nat) (prev : option char) (s : str) : option pos :=
           match n with
           | O => k (prev, s)
           | S n' =>
               match matches r1 prev s
                       (fun q => if (length q.2 <? length s)%nat
                                 then loop n' q.1 q.2 else None) with
               | Some q => Some q
               | None => k (prev, s)
               end
           end) (length q.2) q.1 q.2)
  | WordBoundary =>
      if xorb (word_before prev) (word_after s) then k (prev, s) else None
  end.

(** The match of [r] that starts at the given position, if any. *)
Definition match_at (r : regex) (prev : option char) (s : str) : option pos :=
  matches r prev s Some.

(** [re.sub(r, repl, s)] from a position on: every match, leftmost first and
    without overlap, is replaced by [repl]. The patterns of this program
    match no empty text; an empty match is passed over like a failure. *)
Fixpoint sub_from (r : regex) (repl : str) (fuel : nat)
    (prev : option char) (s : str) : str :=
  match fuel with
  | O => s
  | S fuel' =>
      match match_at r prev s with
      | Some (prev', rest) =>
          if (length rest <? length s)%nat
          then repl ++ sub_from r repl fuel' prev' rest
          else match s with
               | [] => []
               | c :: s' => c :: sub_from r repl fuel' (Some c) s'
               end
      | None =>
          match s with
          | [] => []
          | c :: s' => c :: sub_from r repl fuel' (Some c) s'
          end
      end
  end.

Definition sub (r : regex) (repl : str) (s : str) : str :=
  sub_from r repl (S (length s)) None s.



End Re.

Import Re.

(** ** The optimization module: text canonicalizer *)

Module Canonicalizer.

Definition spaces : regex := Plus (Class is_space).

(** [\b(clorhidrato|sulfato|besilato|maleato|tartrato|citrato|acetato|bromuro)\s+(de\s+)?] *)
Definition sales : list str :=
  [py "clorhidrato"; py "sulfato"; py "besilato"; py "maleato";
   py "tartrato"; py "citrato"; py "acetato"; py "bromuro"].

Definition re_sales : regex :=
  Seq WordBoundary
    (Seq (words sales)
       (Seq spaces (Opt (Seq (Lit (py "de")) spaces)))).

(** [\d+(\.\d+)?\s*(mg|g|ml|mcg|μg|ui|%|mEq)]; the mu is U+03BC. *)
Definition unidades : list str :=
  [py "mg"; py "g"; py "ml"; py "mcg"; 956 :: py "g"; py "ui"; py "%";
   py "mEq"].

Definition re_concentraciones : regex :=
  Seq (Plus (Class is_digit))
    (Seq (Opt (Seq (Lit (py ".")) (Plus (Class is_digit))))
       (Seq (Star (Class is_space)) (words unidades))).

(** [\b(tableta|capsula|ampolleta|solucion|crema|gel|jarabe|supositorio|parche)\b] *)
Definition formas : list str :=
  [py "tableta"; py "capsula"; py "ampolleta"; py "solucion"; py "crema";
   py "gel"; py "jarabe"; py "supositorio"; py "parche"].

Definition re_formas : regex :=
  Seq WordBoundary (Seq (words formas) WordBoundary).

(** [\b(cada|contiene|envase|con)\b] *)
Definition irrelevantes : list str :=
  [py "cada"; py "contiene"; py "envase"; py "con"].

Definition re_irrelevantes : regex :=
  Seq WordBoundary (Seq (words irrelevantes) WordBoundary).

(** [[^\w\s]] *)
Definition re_especiales : regex :=
  Class (fun c => negb (is_word c || is_space c)).

(** First substitution of [normalize_active_ingredient]: the salt and ester
    prefixes are removed from the lower-cased source text. *)
Definition strip_sales (texto_base : str) : str :=
  sub re_sales [] (lower texto_base).

(** [IMSSOptimizationModule.normalize_active_ingredient] *)
Definition normalize_active_ingredient (descripcion nombre_generico : str) : str :=
  let texto_base := or_else nombre_generico descripcion in
  let texto := strip_sales texto_base in
  let texto := sub re_concentraciones [] texto in
  let texto := sub re_formas [] texto in
  let texto := sub re_irrelevantes [] texto in
  let texto := sub re_especiales [] texto in
  let texto := strip (sub spaces (py " ") texto) in
  if truthy texto then upper texto else [].




End Canonicalizer.

Import Canonicalizer.

(** ** The SQLite store *)

Module Sqlite.

(** The exceptions of [sqlite3] that the statements of this program raise. *)
Inductive Exception : Type :=
| OperationalError (msg : str)
| IntegrityError (msg : str).

Definition str_of_exception (e : Exception) : str :=
  match e with
  | OperationalError msg => msg
  | IntegrityError msg => msg
  end.

(** A row of [medicamentos], with the columns that the engine reads or
    writes. [nombre_generico] and [principio_activo_normalizado] may be
    NULL. *)
Record medicamento : Type := Medicamento {
  clave : str;
  descripcion : str;
  nombre_generico : option str;
  grupo_terapeutico : str;
  principio_activo_normalizado : option str
}.

(** A row of [principios_activos]. The [id] column, which nothing reads, is
    left out. *)
Record principio_activo : Type := PrincipioActivo {
  pa_principio_activo_normalizado : str;
  nombres_comerciales : option str;
  total_medicamentos : Z;
  grupos_terapeuticos : option str;
  fecha_normalizacion : str
}.

(** The catalogue table: its column names and its rows. A row's
    [principio_activo_normalizado] is read only when the column exists. *)
Record tabla_medicamentos : Type := TablaMedicamentos {
  columnas : list str;
  filas : list medicamento
}.

(** The store. A table that does not exist is [None];
    [metadatos_sistema] maps its primary key [clave] to
    [(valor, fecha_actualizacion)]; [indices] maps the name of an index to
    the columns of [medicamentos] it covers. *)
Record database : Type := Database {
  medicamentos : option tabla_medicamentos;
  principios_activos : option (list principio_activo);
  metadatos_sistema : option (gmap str (str * str));
  indices : gmap str (list str)
}.

#[global] Instance medicamento_eq_dec : EqDecision medicamento.
Proof. solve_decision. Defined.
#[global] Instance principio_activo_eq_dec : EqDecision principio_activo.
Proof. solve_decision. Defined.

(** *** Statements run on a cursor: state and exceptions *)

Inductive outcome (A : Type) : Type :=
| Ok (a : A)
| Raise (e : Exception).
Arguments Ok {A} a.
Arguments Raise {A} e.

Definition M (A : Type) : Type := database -> outcome A * database.

Definition ret {A} (a : A) : M A := fun db => (Ok a, db).
Definition bind {A B} (m : M A) (f : A -> M B) : M B :=
  fun db =>
    match m db with
    | (Ok a, db') => f a db'
    | (Raise e, db') => (Raise e, db')
    end.

(** [try: m  except sqlite3.OperationalError: h] *)
Definition try_except_OperationalError {A} (m : M A) (h : M A) : M A :=
  fun db =>
    match m db with
    | (Raise (OperationalError _), db') => h db'
    | r => r
    end.

Declare Scope cursor_scope.
Delimit Scope cursor_scope with cursor.
Notation "x <- m ;; k" := (bind m (fun x => k))
  (at level 100, m at next level, k at level 200, right associativity)
  : cursor_scope.
Notation "m ;;; k" := (bind m (fun _ => k))
  (at level 100, k at level 200, right associativity) : cursor_scope.

Local Open Scope cursor_scope.

(** [for x in l: body(x); n += 1], returning the counter. *)
Fixpoint for_count {A} (body : nat -> A -> M unit) (n : nat) (l : list A) : M nat :=
  match l with
  | [] => ret n
  | x :: l' => body n x ;;; for_count body (S n) l'
  end.

(** [for x in l: body(x)] *)
Fixpoint for_each {A} (body : A -> M unit) (l : list A) : M unit :=
  match l with
  | [] => ret tt
  | x :: l' => body x ;;; for_each body l'
  end.

Definition no_such_table (t : str) : Exception :=
  OperationalError (py "no such table: " ++ t).
Definition no_such_column (c : str) : Exception :=
  OperationalError (py "no such column: " ++ c).

Definition col_principio : str := py "principio_activo_normalizado".

(** *** SQL functions *)

(** [x LIKE pat]: [%] stands for any text, [_] for any one character, and
    ASCII letters are compared without case. *)
Definition ascii_upper (c : char) : char :=
  if in_range 97 122 c then c - 32 else c.

Fixpoint like (pat : str) (x : str) : bool :=
  match pat with
  | [] => negb (truthy x)
  | p :: pat' =>
      if p =? 37 then
        (fix any (x : str) : bool :=
           like pat' x || match x with [] => false | _ :: x' => any x' end) x
      else
        match x with
        | [] => false
        | c :: x' =>
            ((p =? 95) || (ascii_upper p =? ascii_upper c)) && like pat' x'
        end
  end.

(** [GROUP_CONCAT(x, sep)] over the non-NULL values of a group; NULL when
    there is none. *)
Definition group_concat (sep : str) (l : list str) : option str :=
  match l with
  | [] => None
  | _ => Some (join sep l)
  end.

(** [x != ''], which is not true of NULL. *)
Definition not_empty (x : option str) : bool :=
  match x with
  | Some s => truthy s
  | None => false
  end.

(** [ORDER BY total DESC] on rows with a count. *)
Definition order_by_desc {A} (total : A -> Z) (l : list A) : list A :=
  @merge_sort A (fun a b => (total b <= total a)%Z)
    (fun a b => decide (total b <= total a)%Z) l.

End Sqlite.

Import Sqlite.

(** ** The optimization module: schema, normalization pass, search *)

Module Optimization.

Local Open Scope cursor_scope.

(** Every catalogue table has the four columns that its rows carry here;
    [columnas] names the others. *)
Definition columnas_base : list str :=
  [py "clave"; py "descripcion"; py "nombre_generico"; py "grupo_terapeutico"].

Definition has_column (t : tabla_medicamentos) (c : str) : bool :=
  bool_decide (c ∈ columnas_base) || bool_decide (c ∈ columnas t).

(** *** The statements of [setup_optimization_tables] *)

(** [ALTER TABLE medicamentos ADD COLUMN principio_activo_normalizado TEXT].
    The new column is NULL in every row. *)
Definition alter_table_add_column_principio : M unit := fun db =>
  match medicamentos db with
  | None => (Raise (no_such_table (py "medicamentos")), db)
  | Some t =>
      if has_column t col_principio
      then (Raise (OperationalError (py "duplicate column name: " ++ col_principio)), db)
      else
        let filas' :=
          map (fun m => Medicamento (clave m) (descripcion m) (nombre_generico m)
                          (grupo_terapeutico m) None) (filas t) in
        (Ok tt,
         Database (Some (TablaMedicamentos (columnas t ++ [col_principio]) filas'))
           (principios_activos db) (metadatos_sistema db) (indices db))
  end.

(** [CREATE TABLE IF NOT EXISTS principios_activos (...)] *)
Definition create_table_principios_activos : M unit := fun db =>
  match principios_activos db with
  | Some _ => (Ok tt, db)
  | None =>
      (Ok tt, Database (medicamentos db) (Some []) (metadatos_sistema db) (indices db))
  end.

(** [CREATE TABLE IF NOT EXISTS metadatos_sistema (...)] *)
Definition create_table_metadatos_sistema : M unit := fun db =>
  match metadatos_sistema db with
  | Some _ => (Ok tt, db)
  | None =>
      (Ok tt, Database (medicamentos db) (principios_activos db) (Some ∅) (indices db))
  end.

(** [CREATE INDEX IF NOT EXISTS name ON medicamentos(cols)]. SQLite looks
    the table up first, then the index name, then the columns. *)
Definition create_index (name : str) (cols : list str) : M unit := fun db =>
  match medicamentos db with
  | None => (Raise (no_such_table (py "main.medicamentos")), db)
  | Some t =>
      match indices db !! name with
      | Some _ => (Ok tt, db)
      | None =>
          match filter (fun c => has_column t c = false) cols with
          | c :: _ => (Raise (no_such_column c), db)
          | [] =>
              (Ok tt,
               Database (medicamentos db) (principios_activos db)
                 (metadatos_sistema db) (<[name := cols]> (indices db)))
          end
      end
  end.

Definition indices_optimizados : list (str * list str) :=
  [(py "idx_principio_activo", [col_principio]);
   (py "idx_optimized_search", [col_principio; py "grupo_terapeutico"]);
   (py "idx_categoria_estado", [py "categoria_medicamento"; py "estado"])].

(** [IMSSOptimizationModule.setup_optimization_tables]. The DDL statements
    take effect as they run, so the store after an exception is the one
    the statements before it have left. *)
Definition setup_optimization_tables : M unit :=
  try_except_OperationalError alter_table_add_column_principio (ret tt) ;;;
  create_table_principios_activos ;;;
  create_table_metadatos_sistema ;;;
  for_each (fun indice => create_index indice.1 indice.2) indices_optimizados.




(** The store that the guarded [ALTER TABLE] leaves: the column is added
    when the catalogue table is there without it. *)
Definition tras_alter (db : database) : database :=
  match medicamentos db with
  | None => db
  | Some t =>
      if has_column t col_principio then db
      else (alter_table_add_column_principio db).2
  end.

(** The store with the two derived tables created if they were missing. *)
Definition tras_tablas (db : database) : database :=
  Database (medicamentos db)
    (Some (default [] (principios_activos db)))
    (Some (default ∅ (metadatos_sistema db)))
    (indices db).

(** A store on which the schema is set up: the catalogue has the derived
    column, the two derived tables exist, and the three index names are
    taken. *)
Definition configurada (db : database) : Prop :=
  (exists t, medicamentos db = Some t /\ has_column t col_principio = true) /\
  is_Some (principios_activos db) /\
  is_Some (metadatos_sistema db) /\
  Forall (fun indice : str * list str => is_Some (indices db !! indice.1))
    indices_optimizados.

(** *** The statements of [normalize_database] *)

Definition clave_normalizacion : str := py "normalizacion_completa".

(** [SELECT valor FROM metadatos_sistema WHERE clave = k], [fetchone()] *)
Definition select_valor (k : str) : M (option str) := fun db =>
  match metadatos_sistema db with
  | None => (Raise (no_such_table (py "metadatos_sistema")), db)
  | Some meta => (Ok (fst <$> meta !! k), db)
  end.

(** [SELECT clave, descripcion, nombre_generico FROM medicamentos] *)
Definition select_medicamentos : M (list (str * str * option str)) := fun db =>
  match medicamentos db with
  | None => (Raise (no_such_table (py "medicamentos")), db)
  | Some t =>
      (Ok (map (fun m => (clave m, descripcion m, nombre_generico m)) (filas t)), db)
  end.

(** [UPDATE medicamentos SET principio_activo_normalizado = v WHERE clave = k] *)
Definition update_principio (v k : str) : M unit := fun db =>
  match medicamentos db with
  | None => (Raise (no_such_table (py "medicamentos")), db)
  | Some t =>
      if has_column t col_principio then
        let filas' :=
          map (fun m =>
                 if bool_decide (clave m = k)
                 then Medicamento (clave m) (descripcion m) (nombre_generico m)
                        (grupo_terapeutico m) (Some v)
                 else m) (filas t) in
        (Ok tt,
         Database (Some (TablaMedicamentos (columnas t) filas'))
           (principios_activos db) (metadatos_sistema db) (indices db))
      else (Raise (no_such_column col_principio), db)
  end.

(** [DELETE FROM principios_activos] *)
Definition delete_principios_activos : M unit := fun db =>
  match principios_activos db with
  | None => (Raise (no_such_table (py "principios_activos")), db)
  | Some _ =>
      (Ok tt, Database (medicamentos db) (Some []) (metadatos_sistema db) (indices db))
  end.

(** The rows with [principio_activo_normalizado = token]. *)
Definition miembros (token : str) (l : list medicamento) : list medicamento :=
  filter (fun m => principio_activo_normalizado m = Some token) l.

(** A row of the grouping query: token, concatenated descriptions, count,
    concatenated therapeutic groups. *)
Definition grupo : Type := str * option str * Z * option str.

Definition grupo_de (l : list medicamento) (token : str) : grupo :=
  let ms := miembros token l in
  (token,
   group_concat (py ",") (descripcion <$> ms),
   Z.of_nat (length ms),
   group_concat (py ",") (grupo_terapeutico <$> ms)).

(** The distinct non-empty tokens of the rows. *)
Definition tokens (l : list medicamento) : list str :=
  remove_dups
    (omap principio_activo_normalizado
       (filter (fun m => not_empty (principio_activo_normalizado m) = true) l)).

(** [SELECT principio_activo_normalizado, GROUP_CONCAT(descripcion),
     COUNT( * ), GROUP_CONCAT(grupo_terapeutico) FROM medicamentos
     WHERE principio_activo_normalizado != '' AND
           principio_activo_normalizado IS NOT NULL
     GROUP BY principio_activo_normalizado ORDER BY COUNT( * ) DESC].
    SQL leaves the order of groups of equal count open. *)
Definition select_grupos : M (list grupo) := fun db =>
  match medicamentos db with
  | None => (Raise (no_such_table (py "medicamentos")), db)
  | Some t =>
      if has_column t col_principio then
        (Ok (order_by_desc (fun g : grupo => g.1.2)
               (grupo_de (filas t) <$> tokens (filas t))), db)
      else (Raise (no_such_column col_principio), db)
  end.

(** [INSERT INTO principios_activos (...) VALUES (?, ?, ?, ?, ?)]; the
    token column is UNIQUE. *)
Definition insert_principio_activo (g : grupo) (fecha : str) : M unit := fun db =>
  match principios_activos db with
  | None => (Raise (no_such_table (py "principios_activos")), db)
  | Some pas =>
      if bool_decide (g.1.1.1 ∈ pa_principio_activo_normalizado <$> pas)
      then (Raise (IntegrityError
                     (py "UNIQUE constraint failed: principios_activos.principio_activo_normalizado")),
            db)
      else
        (Ok tt,
         Database (medicamentos db)
           (Some (pas ++ [PrincipioActivo g.1.1.1 g.1.1.2 g.1.2 g.2 fecha]))
           (metadatos_sistema db) (indices db))
  end.

(** The rows that the insert loop of [normalize_database] writes for the
    groups [gs], its counter starting at [n]. *)
Fixpoint filas_pa (now : nat -> str) (n : nat) (gs : list grupo) : list principio_activo :=
  match gs with
  | [] => []
  | g :: gs' =>
      PrincipioActivo g.1.1.1 g.1.1.2 g.1.2 g.2 (now n) :: filas_pa now (S n) gs'
  end.

(** [INSERT OR REPLACE INTO metadatos_sistema (clave, valor,
     fecha_actualizacion) VALUES (k, v, fecha)] *)
Definition insert_or_replace_metadatos (k v fecha : str) : M unit := fun db =>
  match metadatos_sistema db with
  | None => (Raise (no_such_table (py "metadatos_sistema")), db)
  | Some meta =>
      (Ok tt,
       Database (medicamentos db) (principios_activos db)
         (Some (<[k := (v, fecha)]> meta)) (indices db))
  end.

(** [SELECT COUNT( * ) FROM medicamentos WHERE principio_activo_normalizado != ''] *)
Definition count_normalizados : M Z := fun db =>
  match medicamentos db with
  | None => (Raise (no_such_table (py "medicamentos")), db)
  | Some t =>
      if has_column t col_principio then
        (Ok (Z.of_nat (length
               (filter (fun m => not_empty (principio_activo_normalizado m) = true)
                  (filas t)))), db)
      else (Raise (no_such_column col_principio), db)
  end.

(** [SELECT COUNT( * ) FROM principios_activos] *)
Definition count_principios_activos : M Z := fun db =>
  match principios_activos db with
  | None => (Raise (no_such_table (py "principios_activos")), db)
  | Some pas => (Ok (Z.of_nat (length pas)), db)
  end.

(** The dictionary that [normalize_database] returns. *)
Record estadisticas : Type := Estadisticas {
  medicamentos_actualizados : Z;
  principios_activos_encontrados : Z;
  estado : str
}.

(** The statistics of a normalized store with catalogue [t] and group
    rows [pas]: what the two counting statements give. *)
Definition cached (t : tabla_medicamentos) (pas : list principio_activo) : estadisticas :=
  Estadisticas
    (Z.of_nat (length (filter (fun m => not_empty (principio_activo_normalizado m) = true)
                         (filas t))))
    (Z.of_nat (length pas))
    (py "ya_completada").

(** [IMSSOptimizationModule._get_normalization_stats] *)
Definition _get_normalization_stats : M estadisticas :=
  medicamentos_normalizados <- count_normalizados ;;
  principios_unicos <- count_principios_activos ;;
  ret (Estadisticas medicamentos_normalizados principios_unicos (py "ya_completada")).

(** [IMSSOptimizationModule.normalize_database]. [now i] is what the
    [i]-th call of [datetime.now().isoformat()] of the pass returns. *)
Definition normalize_database (now : nat -> str) : M estadisticas :=
  resultado <- select_valor clave_normalizacion ;;
  if bool_decide (resultado = Some (py "true")) then
    _get_normalization_stats
  else
    medicamentos <- select_medicamentos ;;
    actualizaciones <-
      for_count
        (fun _ (m : str * str * option str) =>
           let principio_normalizado :=
             normalize_active_ingredient m.1.2 (opt_or_else m.2 []) in
           update_principio principio_normalizado m.1.1)
        0 medicamentos ;;
    delete_principios_activos ;;;
    grupos_principios <- select_grupos ;;
    principios_insertados <-
      for_count (fun i g => insert_principio_activo g (now i)) 0 grupos_principios ;;
    insert_or_replace_metadatos clave_normalizacion (py "true")
      (now principios_insertados) ;;;
    ret (Estadisticas (Z.of_nat actualizaciones) (Z.of_nat principios_insertados)
           (py "completada")).

(** *** Search *)

(** [x.split(sep) if x else []] *)
Definition split_if (sep : str) (x : option str) : list str :=
  match x with
  | Some s => if truthy s then split sep s else []
  | None => []
  end.

(** An entry of the list that [find_similar_medications] returns. *)
Record similares : Type := Similares {
  s_principio_activo : str;
  s_total_medicamentos : Z;
  s_grupos_terapeuticos : list str;
  s_claves : list str;
  s_descripciones : list str
}.

(** A row of the search query. *)
Definition fila_busqueda : Type := str * Z * option str * option str * option str.

(** [SELECT pa.principio_activo_normalizado, pa.total_medicamentos,
     pa.grupos_terapeuticos, GROUP_CONCAT(m.clave, '|'),
     GROUP_CONCAT(m.descripcion)
     FROM principios_activos pa JOIN medicamentos m
       ON pa.principio_activo_normalizado = m.principio_activo_normalizado
     WHERE pa.principio_activo_normalizado LIKE pat COLLATE NOCASE
     GROUP BY pa.principio_activo_normalizado
     ORDER BY pa.total_medicamentos DESC].
    The token column of [principios_activos] is UNIQUE, so every group of
    the join comes from one of its rows; a row that joins with no
    catalogue row gives no group. *)
Definition select_similares (pat : str) : M (list fila_busqueda) := fun db =>
  match principios_activos db, medicamentos db with
  | None, _ => (Raise (no_such_table (py "principios_activos")), db)
  | Some _, None => (Raise (no_such_table (py "medicamentos")), db)
  | Some pas, Some t =>
      if has_column t col_principio then
        let encontrados :=
          filter (fun pa =>
                    like pat (pa_principio_activo_normalizado pa) = true
                    ∧ miembros (pa_principio_activo_normalizado pa) (filas t) ≠ [])
            pas in
        let fila pa : fila_busqueda :=
          let ms := miembros (pa_principio_activo_normalizado pa) (filas t) in
          (pa_principio_activo_normalizado pa,
           total_medicamentos pa,
           grupos_terapeuticos pa,
           group_concat (py "|") (clave <$> ms),
           group_concat (py ",") (descripcion <$> ms)) in
        (Ok (order_by_desc (fun f : fila_busqueda => f.1.1.1.2) (fila <$> encontrados)),
         db)
      else (Raise (no_such_column col_principio), db)
  end.

(** [IMSSOptimizationModule.find_similar_medications] *)
Definition find_similar_medications (search_term : str) : M (list similares) :=
  let search_normalized := normalize_active_ingredient [] search_term in
  rows <- select_similares (py "%" ++ search_normalized ++ py "%") ;;
  ret (map (fun row : fila_busqueda =>
              Similares row.1.1.1.1 row.1.1.1.2
                (split_if (py ", ") row.1.1.2)
                (split_if (py "|") row.1.2)
                (split_if (py " | ") row.2))
         rows).

End Optimization.

Import Optimization.

(** ** Python floats *)

Module PyFloat.

Local Open Scope Z_scope.

(** [float(z)]; exact below 2^53. *)
Definition of_Z (z : Z) : float :=
  if z <? 0 then PrimFloat.opp (PrimFloat.of_uint63 (Uint63.of_Z (- z)))
  else PrimFloat.of_uint63 (Uint63.of_Z z).

(** [a / b] on integers. *)
Definition truediv (a b : Z) : float := PrimFloat.div (of_Z a) (of_Z b).

(** The integer nearest to [n / d], ties to the even one ([0 <= n], [0 < d]). *)
Definition div_half_even (n d : Z) : Z :=
  let q := n / d in
  let r := n mod d in
  if 2 * r <? d then q
  else if d <? 2 * r then q + 1
  else if Z.even q then q else q + 1.

(** [round(x, ndigits)] for [0 <= ndigits]: the exact value of [x] is
    rounded half-even to a decimal of [ndigits] places, and the double
    nearest to that decimal is returned. *)
Definition round (x : float) (ndigits : Z) : float :=
  match Prim2SF x with
  | S754_finite s m e =>
      let p := 10 ^ ndigits in
      let k := if 0 <=? e then Z.pos m * 2 ^ e * p
               else div_half_even (Z.pos m * p) (2 ^ (- e)) in
      let r := PrimFloat.div (of_Z k) (of_Z p) in
      if s then PrimFloat.opp r else r
  | _ => x
  end.

(** [x > y] *)
Definition gt (x y : float) : bool := PrimFloat.ltb y x.

End PyFloat.

(** ** The database inspector *)

Module Inspector.

Local Open Scope Z_scope.

(** The dictionary of [check_normalization_status]. *)
Record normalization_status : Type := NormalizationStatus {
  normalization_tables_exist : bool;
  normalization_completed : bool;
  normalization_date : option str;
  medicamentos_normalized : Z;
  medicamentos_without_normalization : Z;
  active_ingredients_found : Z;
  optimization_indexes_exist : bool
}.

(** [principio_activo_normalizado IS NULL OR principio_activo_normalizado = ''] *)
Definition sin_normalizar (m : medicamento) : bool :=
  negb (not_empty (principio_activo_normalizado m)).

(** [SELECT name FROM pragma_table_info('medicamentos')
     WHERE name = 'principio_activo_normalizado'], [fetchone()] truth:
    no row when the table or the column is missing. *)
Definition has_normalization_column (db : database) : bool :=
  match medicamentos db with
  | Some t => has_column t col_principio
  | None => false
  end.

Definition count_where (p : medicamento -> bool) (db : database) : Z :=
  match medicamentos db with
  | Some t => Z.of_nat (length (filter (fun m => p m = true) (filas t)))
  | None => 0
  end.

Definition count_all (db : database) : Z := count_where (fun _ => true) db.

(** [IMSSDatabaseInspector.check_normalization_status]. None of its
    statements fails on a store of this model, each being guarded by the
    look-up before it, so the [except] branch is not taken. The automatic
    indexes of SQLite are not in [indices]; none of their names matches
    the pattern. *)
Definition check_normalization_status (db : database) : normalization_status :=
  let tiene_pa := bool_decide (is_Some (principios_activos db)) in
  let tiene_meta := bool_decide (is_Some (metadatos_sistema db)) in
  let result :=
    match metadatos_sistema db with
    | Some meta => meta !! clave_normalizacion
    | None => None
    end in
  let columna := has_normalization_column db in
  NormalizationStatus
    (tiene_pa && tiene_meta)
    (match result with Some r => bool_decide (r.1 = py "true") | None => false end)
    (snd <$> result)
    (if columna
     then count_where (fun m => not_empty (principio_activo_normalizado m)) db
     else 0)
    (if columna then count_where sin_normalizar db else 0)
    (match principios_activos db with
     | Some pas => Z.of_nat (length pas)
     | None => 0
     end)
    (bool_decide
       (Exists (fun name => like (py "%principio_activo%") name = true)
               (map fst (map_to_list (indices db))))).

(** The [normalization_quality] entry of [analyze_active_ingredients]. *)
Record normalization_quality : Type := NormalizationQuality {
  q_total_medications : Z;
  q_normalized_medications : Z;
  q_unnormalized_medications : Z;
  q_normalization_percentage : float
}.

(** The dictionary of [analyze_active_ingredients]; an entry that stays
    [{}] is [None]. *)
Record analysis : Type := Analysis {
  top_ingredients : list (str * Z * list str);
  ingredients_with_multiple_products : list (str * Z);
  total_unique_ingredients : Z;
  quality : option normalization_quality
}.

(** [IMSSDatabaseInspector.analyze_active_ingredients] *)
Definition analyze_active_ingredients (db : database) : analysis :=
  let pas := default [] (principios_activos db) in
  let ranking := order_by_desc total_medicamentos pas in
  Analysis
    (map (fun pa => (pa_principio_activo_normalizado pa, total_medicamentos pa,
                     split_if (py ",") (grupos_terapeuticos pa)))
         (take 10 ranking))
    (map (fun pa => (pa_principio_activo_normalizado pa, total_medicamentos pa))
         (take 20 (order_by_desc total_medicamentos
                     (filter (fun pa => 1 < total_medicamentos pa) pas))))
    (Z.of_nat (length pas))
    (if has_normalization_column db then
       let unnormalized := count_where sin_normalizar db in
       let total := count_all db in
       if 0 <? total then
         let normalization_percentage :=
           PrimFloat.mul (PyFloat.truediv (total - unnormalized) total)
                         (PyFloat.of_Z 100) in
         Some (NormalizationQuality total (total - unnormalized) unnormalized
                 (PyFloat.round normalization_percentage 2))
       else None
     else None).

(** The [normalization_applied] entry of an example. *)
Record proceso : Type := Proceso {
  original : str;
  normalized : str;
  process_applied : bool
}.

(** [IMSSDatabaseInspector._show_normalization_process] *)
Definition _show_normalization_process
    (description : str) (generic_name : option str) (normalized : str) : proceso :=
  let original := opt_or_else generic_name description in
  Proceso original normalized (negb (PyStr.eqb original normalized)).

(** The flag as the specification words it, to compare with
    [process_applied]: "true iff original differs from canonical after
    case-folding". *)
Definition spec_transform_applied (original canonical : str) : bool :=
  negb (PyStr.eqb (lower original) (lower canonical)).

(** An entry of [find_normalization_examples]. *)
Record ejemplo : Type := Ejemplo {
  e_clave : str;
  original_description : str;
  generic_name : option str;
  normalized_ingredient : str;
  normalization_applied : proceso
}.

(** Text order of the BINARY collation. *)
Fixpoint str_leb (a b : str) : bool :=
  match a, b with
  | [], _ => true
  | _ :: _, [] => false
  | x :: a', y :: b' => (x <? y)%N || ((x =? y)%N && str_leb a' b')
  end.

Definition order_by_principio (l : list medicamento) : list medicamento :=
  @merge_sort medicamento
    (fun a b => str_leb (default [] (principio_activo_normalizado a))
                        (default [] (principio_activo_normalizado b)) = true)
    (fun a b => decide (str_leb (default [] (principio_activo_normalizado a))
                                (default [] (principio_activo_normalizado b)) = true))
    l.

(** [x LIKE pat] where [x] may be NULL. *)
Definition like_opt (pat : str) (x : option str) : bool :=
  match x with
  | Some s => like pat s
  | None => false
  end.

(** [IMSSDatabaseInspector.find_normalization_examples]. [random] is the
    order that [ORDER BY RANDOM()] gives to the rows. *)
Definition find_normalization_examples
    (random : list medicamento -> list medicamento)
    (search_term : str) (db : database) : list ejemplo :=
  match medicamentos db with
  | Some t =>
      if has_column t col_principio then
        let normalizados :=
          filter (fun m => not_empty (principio_activo_normalizado m) = true)
            (filas t) in
        let rows :=
          if truthy search_term then
            let pat := py "%" ++ search_term ++ py "%" in
            take 20
              (order_by_principio
                 (filter (fun m => like pat (descripcion m)
                                   || like_opt pat (nombre_generico m)
                                   || like_opt pat (principio_activo_normalizado m)
                                   = true)
                    normalizados))
          else take 15 (random normalizados) in
        map (fun m =>
               let n := default [] (principio_activo_normalizado m) in
               Ejemplo (clave m) (descripcion m) (nombre_generico m) n
                 (_show_normalization_process (descripcion m) (nombre_generico m) n))
            rows
      else []
  | None => []
  end.

(** The messages of the recommendations list:
    - [CrearTablas]: "Ejecutar módulo de optimización para crear tablas de normalización"
    - [EjecutarNormalizacion]: "Ejecutar proceso de normalización completa"
    - [NormalizarRestantes n]: f"Normalizar {n} medicamentos restantes"
    - [CrearIndices]: "Crear índices de optimización para búsquedas rápidas"
    - [GenerarTabla]: "Generar tabla de principios activos agrupados" *)
Inductive recomendacion : Type :=
| CrearTablas
| EjecutarNormalizacion
| NormalizarRestantes (n : Z)
| CrearIndices
| GenerarTabla.

(** [if cond: report['recommendations'].append(r)] *)
Definition append_if (cond : bool) (r : recomendacion)
    (l : list recomendacion) : list recomendacion :=
  if cond then l ++ [r] else l.

(** The recommendations of [get_inspection_report], from the status. *)
Definition recommendations (norm_status : normalization_status) : list recomendacion :=
  let l := [] in
  let l := append_if (negb (normalization_tables_exist norm_status)) CrearTablas l in
  let l := append_if (negb (normalization_completed norm_status)) EjecutarNormalizacion l in
  let l := append_if (0 <? medicamentos_without_normalization norm_status)
             (NormalizarRestantes (medicamentos_without_normalization norm_status)) l in
  let l := append_if (negb (optimization_indexes_exist norm_status)) CrearIndices l in
  let l := append_if (active_ingredients_found norm_status =? 0) GenerarTabla l in
  l.

(** The report of [get_inspection_report]: the entries computed from the
    rows of the store. The time stamp, the file name and size, the
    structure listing and the sample rows are left out. *)
Record inspection_report : Type := InspectionReport {
  r_normalization_status : normalization_status;
  r_active_ingredients_analysis : analysis;
  r_recommendations : list recomendacion
}.

(** [IMSSDatabaseInspector.get_inspection_report] *)
Definition get_inspection_report (db : database) : inspection_report :=
  let norm_status := check_normalization_status db in
  InspectionReport norm_status (analyze_active_ingredients db)
    (recommendations norm_status).

End Inspector.

(** ** The quick checker *)

Module QuickCheck.

Local Open Scope Z_scope.

(** The full dictionary of [quick_status]. *)
Record report : Type := Report {
  status : str;
  total_medications : Z;
  normalized_medications : Z;
  normalization_percentage : float;
  unique_ingredients : Z;
  optimization_table_exists : bool;
  ready_for_use : bool
}.

(** What [quick_status] returns: [{'status': 'no_database', ...}],
    [{'status': 'error', 'message': str(e)}], or the full dictionary. *)
Inductive result : Type :=
| NoDatabase
| Error (message : str)
| Checked (r : report).


(** The local [normalized_count] of [quick_status]. *)
Definition normalized_count (db : database) : Z :=
  if Inspector.has_normalization_column db
  then Inspector.count_where (fun m => not_empty (principio_activo_normalizado m)) db
  else 0.

(** The local [normalization_percent] of [quick_status], before rounding. *)
Definition normalization_percent (db : database) : float :=
  let total_meds := Inspector.count_all db in
  if Inspector.has_normalization_column db then
    if 0 <? total_meds
    then PrimFloat.mul (PyFloat.truediv (normalized_count db) total_meds)
                       (PyFloat.of_Z 100)
    else PyFloat.of_Z 0
  else PyFloat.of_Z 0.

(** [IMSSQuickChecker.quick_status]. [file_exists] is [self.exists], and
    [db] the store read from the file. The first statement fails when the
    catalogue table is missing; the later ones are guarded. *)
Definition quick_status (file_exists : bool) (db : database) : result :=
  if negb file_exists then NoDatabase
  else
    match medicamentos db with
    | None => Error (str_of_exception (no_such_table (py "medicamentos")))
    | Some t =>
        let total_meds := Inspector.count_all db in
        let normalization_percent := normalization_percent db in
        let has_optimization_table := bool_decide (is_Some (principios_activos db)) in
        let unique_ingredients :=
          match principios_activos db with
          | Some pas => Z.of_nat (length pas)
          | None => 0
          end in
        Checked
          (Report
             (if PyFloat.gt normalization_percent (PyFloat.of_Z 90)
              then py "ready" else py "needs_optimization")
             total_meds
             (normalized_count db)
             (PyFloat.round normalization_percent 1)
             unique_ingredients
             has_optimization_table
             (PyFloat.gt normalization_percent (PyFloat.of_Z 50)
              && has_optimization_table))
    end.

End QuickCheck.

(** ** The example catalogue of the specification *)

Module Escenario.

Definition paracetamol_1 : str := py "Paracetamol 500 mg Tableta".
Definition paracetamol_2 : str := py "paracetamol 500mg tableta".
(** "Ibuprofeno 400 mg Cápsula"; the accented a is U+00E1. *)
Definition ibuprofeno : str := py "Ibuprofeno 400 mg C" ++ 225 :: py "psula".
Definition metformina : str := py "Clorhidrato de Metformina 850 mg Tableta".

(** Four records as the ingestion writes them: every text column a
    string, the canonical ingredient still empty. The last one has a
    description and no generic name. *)
Definition registros : list medicamento :=
  [Medicamento (py "010.000.0104.00") (py "PARACETAMOL. TABLETA") (Some paracetamol_1)
     (py "Analgesia") (Some []);
   Medicamento (py "010.000.0105.00") (py "PARACETAMOL. TABLETA 500") (Some paracetamol_2)
     (py "Analgesia") (Some []);
   Medicamento (py "010.000.3407.00") (py "IBUPROFENO. CAPSULA") (Some ibuprofeno)
     (py "Reumatologia") (Some []);
   Medicamento (py "010.000.5165.00") metformina (Some [])
     (py "Endocrinologia") (Some [])].

Definition columnas_catalogo : list str :=
  [py "categoria_medicamento"; py "estado"; col_principio].

Definition catalogo : database :=
  Database (Some (TablaMedicamentos columnas_catalogo registros)) None None ∅.

(** The store after [setup_optimization_tables] and [normalize_database]. *)
Definition preparado : database := (setup_optimization_tables catalogo).2.

Definition normalizado (now : nat -> str) : database :=
  (normalize_database now preparado).2.

Definition tokens_de (db : database) : list (option str) :=
  match medicamentos db with
  | Some t => principio_activo_normalizado <$> filas t
  | None => []
  end.

(** "IBUPROFENO CÁPSULA"; the accented A is U+00C1. *)
Definition ibuprofeno_capsula : str := py "IBUPROFENO C" ++ 193 :: py "PSULA".

(** An empty catalogue, set up and normalized. *)
Definition catalogo_vacio : database :=
  Database (Some (TablaMedicamentos columnas_catalogo [])) None None ∅.

Definition vacio_normalizado (now : nat -> str) : database :=
  (normalize_database now (setup_optimization_tables catalogo_vacio).2).2.


(** A catalogue of three records, one of them not normalized. *)
Definition parcial : database :=
  Database
    (Some (TablaMedicamentos columnas_catalogo
             [Medicamento (py "010.000.0104.00") (py "PARACETAMOL. TABLETA")
                (Some (py "paracetamol")) (py "Analgesia") (Some (py "PARACETAMOL"));
              Medicamento (py "010.000.3407.00") (py "IBUPROFENO. CAPSULA")
                (Some (py "Ibuprofeno")) (py "Reumatologia") (Some (py "IBUPROFENO"));
              Medicamento (py "010.000.5165.00") (py "METFORMINA. TABLETA")
                (Some []) (py "") (Some [])]))
    (Some []) (Some ∅) ∅.

(** A catalogue of one record, with no therapeutic group. *)
Definition sin_grupo : database :=
  Database
    (Some (TablaMedicamentos columnas_catalogo
             [Medicamento (py "010.000.5165.00") (py "METFORMINA. TABLETA")
                (Some (py "Metformina 850 mg")) [] (Some [])]))
    None None ∅.

Definition sin_grupo_normalizado (now : nat -> str) : database :=
  (normalize_database now (setup_optimization_tables sin_grupo).2).2.

(** The normalized example after its second record was ingested again:
    the record is back with an empty canonical ingredient, and the group
    table and the completion flag are as the pass left them. *)
Definition reingresado (now : nat -> str) : database :=
  let db := normalizado now in
  Database
    (option_map
       (fun t =>
          TablaMedicamentos (columnas t)
            (map (fun m =>
                    if bool_decide (clave m = py "010.000.0105.00")
                    then Medicamento (clave m) (descripcion m) (nombre_generico m)
                           (grupo_terapeutico m) (Some [])
                    else m) (filas t)))
       (medicamentos db))
    (principios_activos db) (metadatos_sistema db) (indices db).

(** The entry that the search for "paracetamol" returns on the example. *)
Definition entrada_paracetamol : similares :=
  Similares (py "PARACETAMOL") 2
    [py "Analgesia,Analgesia"]
    [py "010.000.0104.00"; py "010.000.0105.00"]
    [py "PARACETAMOL. TABLETA,PARACETAMOL. TABLETA 500"].

(** The first normalization example of [parcial]. *)
Definition ejemplo_paracetamol : Inspector.ejemplo :=
  Inspector.Ejemplo (py "010.000.0104.00") (py "PARACETAMOL. TABLETA")
    (Some (py "paracetamol")) (py "PARACETAMOL")
    (Inspector.Proceso (py "paracetamol") (py "PARACETAMOL") true).

Definition reloj (i : nat) : str := py "2024-01-01T00:00:00".

End Escenario.

(** ** The optimization module: status *)

Module OptimizationStatus.

Local Open Scope cursor_scope.

(** The dictionary of [get_optimization_status]. [database_normalized]
    holds the value of [resultado and resultado[0] == 'true']: Python's
    [None] when no row was fetched, the comparison otherwise. *)
Record optimization_status : Type := OptimizationStatus {
  tables_created : bool;
  database_normalized : option bool;
  indexes_created : bool;
  ready_for_fast_search : bool
}.

(** Truth value of [None], [True] and [False]. *)
Definition truthy_opt (b : option bool) : bool := default false b.

(** [IMSSOptimizationModule.get_optimization_status]. The two look-ups in
    [sqlite_master] read the table and the index catalogue. *)
Definition get_optimization_status : M optimization_status :=
  tables_created <- (fun db => (Ok (bool_decide (is_Some (principios_activos db))), db)) ;;
  database_normalized <-
    try_except_OperationalError
      (resultado <- select_valor clave_normalizacion ;;
       ret (match resultado with
            | Some valor => Some (PyStr.eqb valor (py "true"))
            | None => None
            end))
      (ret (Some false)) ;;
  indexes_created <-
    (fun db => (Ok (bool_decide (is_Some (indices db !! py "idx_principio_activo"))), db)) ;;
  ret (OptimizationStatus tables_created database_normalized indexes_created
         (tables_created && truthy_opt database_normalized && indexes_created)).

End OptimizationStatus.

(** ** The database inspector: samples *)

Module InspectorSamples.


(** An entry of [sample_normalized_data]. *)
Record muestra : Type := Muestra {
  m_clave : str;
  m_descripcion : str;
  m_nombre_generico : option str;
  m_principio_activo_normalizado : str;
  m_grupo_terapeutico : str
}.


End InspectorSamples.

(** ** The quick checker: samples, suggestions, readiness *)

Module QuickCheckSteps.

Import QuickCheck.

Local Open Scope Z_scope.

(** An entry of [sample_normalization]. *)
Record muestra : Type := Muestra {
  m_clave : str;
  m_descripcion : str;
  m_principio_normalizado : str
}.



(** The messages of [suggest_next_steps]:
    - [SincronizacionInicial]: "Ejecutar sincronización inicial para crear base de datos"
    - [VerificarIntegridad]: "Verificar integridad de la base de datos"
    - [BaseVacia]: "Base de datos vacía - ejecutar sincronización de PDFs"
    - [PocosMedicamentos]: "Pocos medicamentos - verificar sincronización completa"
    - [NormalizacionInicial]: "Ejecutar normalización inicial del módulo de optimización"
    - [CompletarNormalizacion]: "Completar normalización de medicamentos restantes"
    - [CrearTablaPrincipios]: "Crear tabla de principios activos para búsquedas rápidas"
    - [SistemaListo]: "Sistema listo - puedes usar búsquedas optimizadas" *)
Inductive sugerencia : Type :=
| SincronizacionInicial
| VerificarIntegridad
| BaseVacia
| PocosMedicamentos
| NormalizacionInicial
| CompletarNormalizacion
| CrearTablaPrincipios
| SistemaListo.

(** [IMSSQuickChecker.suggest_next_steps], on a dictionary that
    [quick_status] returns. *)
Definition suggest_next_steps (status : result) : list sugerencia :=
  match status with
  | NoDatabase => [SincronizacionInicial]
  | Error _ => [VerificarIntegridad]
  | Checked r =>
      let total_meds := total_medications r in
      let normalized_percent := normalization_percentage r in
      let has_optimization := optimization_table_exists r in
      let suggestions := [] in
      let suggestions :=
        if total_meds =? 0 then suggestions ++ [BaseVacia]
        else if total_meds <? 1000 then suggestions ++ [PocosMedicamentos]
        else suggestions in
      let suggestions :=
        if PrimFloat.ltb normalized_percent (PyFloat.of_Z 10)
        then suggestions ++ [NormalizacionInicial]
        else if PrimFloat.ltb normalized_percent (PyFloat.of_Z 90)
        then suggestions ++ [CompletarNormalizacion]
        else suggestions in
      let suggestions :=
        if negb has_optimization then suggestions ++ [CrearTablaPrincipios]
        else suggestions in
      let suggestions :=
        if PyFloat.gt normalized_percent (PyFloat.of_Z 90) && has_optimization
        then suggestions ++ [SistemaListo]
        else suggestions in
      suggestions
  end.

(** [is_ready(db_path)]: [status.get('ready_for_use', False)] *)
Definition is_ready (file_exists : bool) (db : database) : bool :=
  match quick_status file_exists db with
  | Checked r => ready_for_use r
  | _ => false
  end.

End QuickCheckSteps.

(** ** The IMSS module: readiness *)

Module IMSSModule.

Local Open Scope Z_scope.

Inductive status_code : Type :=
| IMSS_NO_DATABASE
| IMSS_EMPTY_DATABASE
| IMSS_READY
| IMSS_NEEDS_OPTIMIZATION
| IMSS_CHECK_ERROR.

(** [IMSSModule.is_ready]. The count of the catalogue rows fails when the
    table is missing, and the handler answers [IMSS_CHECK_ERROR]. *)
Definition is_ready (file_exists : bool) (db : database) : bool * status_code :=
  if negb file_exists then (false, IMSS_NO_DATABASE)
  else
    match medicamentos db with
    | None => (false, IMSS_CHECK_ERROR)
    | Some t =>
        let total_meds := Inspector.count_all db in
        if total_meds =? 0 then (false, IMSS_EMPTY_DATABASE)
        else
          let has_normalization := Inspector.has_normalization_column db in
          let normalization_percent :=
            if has_normalization then
              let normalized_count :=
                Inspector.count_where
                  (fun m => not_empty (principio_activo_normalizado m)) db in
              if 0 <? total_meds
              then PrimFloat.mul (PyFloat.truediv normalized_count total_meds)
                                 (PyFloat.of_Z 100)
              else PyFloat.of_Z 0
            else PyFloat.of_Z 0 in
          if PyFloat.gt normalization_percent (PyFloat.of_Z 50)
          then (true, IMSS_READY)
          else (false, IMSS_NEEDS_OPTIMIZATION)
    end.

End IMSSModule.

(** ** The rows that a pass writes *)

Module Pasada.

(** The row [m] with its canonical ingredient set to [v]. *)
Definition con_principio (m : medicamento) (v : str) : medicamento :=
  Medicamento (clave m) (descripcion m) (nombre_generico m) (grupo_terapeutico m)
    (Some v).

(** The row [m] as the pass leaves it: the canonical ingredient is computed
    from the description and the generic name of the row. *)
Definition canonico (m : medicamento) : medicamento :=
  con_principio m
    (normalize_active_ingredient (descripcion m) (opt_or_else (nombre_generico m) [])).

(** The rows after the updates of the fetched rows [l], in their order. *)
Definition actualizar (f : str * str * option str -> str)
    (l : list (str * str * option str)) (rows : list medicamento) : list medicamento :=
  foldl (fun rows m =>
           map (fun r => if bool_decide (clave r = m.1.1)
                         then con_principio r (f m) else r) rows)
    rows l.

(** The columns of a row that the ingestion writes and the pass reads. *)
Definition datos (m : medicamento) : str * str * option str * str :=
  (clave m, descripcion m, nombre_generico m, grupo_terapeutico m).

(** The sum of the counts of the group rows. *)
Definition suma_totales (pas : list principio_activo) : Z :=
  foldr (fun pa s => (total_medicamentos pa + s)%Z) 0%Z pas.

End Pasada.

(** ** The entries of a search *)

Module Busqueda.

(** The entry of [find_similar_medications] for the group row [pa] on the
    catalogue rows [l]. *)
Definition entrada (l : list medicamento) (pa : principio_activo) : similares :=
  let ms := miembros (pa_principio_activo_normalizado pa) l in
  Similares (pa_principio_activo_normalizado pa) (total_medicamentos pa)
    (split_if (py ", ") (grupos_terapeuticos pa))
    (split_if (py "|") (group_concat (py "|") (clave <$> ms)))
    (split_if (py " | ") (group_concat (py ",") (descripcion <$> ms))).

(** The group rows that the query of the search selects. *)
Definition encontrados (pat : str) (l : list medicamento)
    (pas : list principio_activo) : list principio_activo :=
  filter (fun pa => like pat (pa_principio_activo_normalizado pa) = true
                    ∧ miembros (pa_principio_activo_normalizado pa) l ≠ []) pas.

(** The text that the search canonicalizes for a record: its generic name,
    or its description when it has none. *)
Definition texto_base (m : medicamento) : str :=
  or_else (opt_or_else (nombre_generico m) []) (descripcion m).

End Busqueda.

(** ** The shape of a canonical token *)

Module Forma.




End Forma.

(** ** The examples of the inspector *)

Module Ejemplos.

(** The example that [find_normalization_examples] builds from a row. *)
Definition ejemplo_de (m : medicamento) : Inspector.ejemplo :=
  let n := default [] (principio_activo_normalizado m) in
  Inspector.Ejemplo (clave m) (descripcion m) (nombre_generico m) n
    (Inspector._show_normalization_process (descripcion m) (nombre_generico m) n).

(** The rows of the catalogue with a canonical ingredient that is not
    empty; none when the table or the derived column is missing. *)
Definition normalizados (db : database) : list medicamento :=
  match medicamentos db with
  | Some t =>
      if has_column t col_principio
      then filter (fun m => not_empty (principio_activo_normalizado m) = true) (filas t)
      else []
  | None => []
  end.

(** The row holds the term in its description, its generic name or its
    canonical ingredient. *)
Definition coincide (search_term : str) (m : medicamento) : Prop :=
  let pat := py "%" ++ search_term ++ py "%" in
  like pat (descripcion m) || Inspector.like_opt pat (nombre_generico m)
  || Inspector.like_opt pat (principio_activo_normalizado m) = true.

#[global] Instance coincide_dec search_term m : Decision (coincide search_term m).
Proof. unfold coincide. apply _. Defined.

End Ejemplos.

(** ** The IMSS module: optimization after a synchronization *)

Module IMSSOptimizations.


(** The store [db] with the rows of its catalogue replaced by [rows]: what
    an ingestion that adds, replaces or removes records leaves. *)
Definition con_filas (rows : list medicamento) (db : database) : database :=
  Database
    (option_map (fun t => TablaMedicamentos (columnas t) rows) (medicamentos db))
    (principios_activos db) (metadatos_sistema db) (indices db).

End IMSSOptimizations.

(** * Properties *)

(** ** Statements that succeed *)

Section Cursor.

Local Open Scope cursor_scope.

Lemma bind_Ok {A B} (m : M A) (f : A -> M B) db b db' :
  bind m f db = (Ok b, db') ->
  exists a dbm, m db = (Ok a, dbm) /\ f a dbm = (Ok b, db').
Proof.
  unfold bind. destruct (m db) as [[a|e] dbm]; intros H; [eauto | discriminate].
Qed.

Lemma bind_eq {A B} (m : M A) (f : A -> M B) db a dbm :
  m db = (Ok a, dbm) -> bind m f db = f a dbm.
Proof. unfold bind. intros ->. reflexivity. Qed.


Lemma database_eta db :
  db = Database (medicamentos db) (principios_activos db)
         (metadatos_sistema db) (indices db).
Proof. destruct db; reflexivity. Qed.

Lemma select_valor_Ok k db r db' :
  select_valor k db = (Ok r, db') ->
  db' = db /\ exists meta, metadatos_sistema db = Some meta /\ r = fst <$> meta !! k.
Proof.
  unfold select_valor. destruct (metadatos_sistema db) as [meta|]; intros H;
    inversion H; subst; eauto.
Qed.

Lemma select_medicamentos_Ok db r db' :
  select_medicamentos db = (Ok r, db') ->
  db' = db /\ exists t, medicamentos db = Some t /\
    r = map (fun m => (clave m, descripcion m, nombre_generico m)) (filas t).
Proof.
  unfold select_medicamentos. destruct (medicamentos db) as [t|]; intros H;
    inversion H; subst; eauto.
Qed.

Lemma update_principio_Ok v k db u db' :
  update_principio v k db = (Ok u, db') ->
  exists t filas',
    medicamentos db = Some t /\ has_column t col_principio = true /\
    length filas' = length (filas t) /\
    db' = Database (Some (TablaMedicamentos (columnas t) filas'))
            (principios_activos db) (metadatos_sistema db) (indices db).
Proof.
  unfold update_principio. destruct (medicamentos db) as [t|]; [|discriminate].
  destruct (has_column t col_principio) eqn:Hc; [|discriminate].
  intros H; inversion H; subst.
  refine (ex_intro _ t (ex_intro _ _ (conj eq_refl (conj Hc (conj _ eq_refl))))).
  by rewrite length_map.
Qed.

Lemma delete_principios_activos_Ok db u db' :
  delete_principios_activos db = (Ok u, db') ->
  is_Some (principios_activos db) /\
  db' = Database (medicamentos db) (Some []) (metadatos_sistema db) (indices db).
Proof.
  unfold delete_principios_activos.
  destruct (principios_activos db); intros H; inversion H; subst; eauto.
Qed.

Lemma select_grupos_Ok db r db' :
  select_grupos db = (Ok r, db') ->
  db' = db /\ exists t,
    medicamentos db = Some t /\ has_column t col_principio = true /\
    r = order_by_desc (fun g : grupo => g.1.2) (grupo_de (filas t) <$> tokens (filas t)).
Proof.
  unfold select_grupos. destruct (medicamentos db) as [t|]; [|discriminate].
  destruct (has_column t col_principio) eqn:Hc; [|discriminate].
  intros H; inversion H; subst. eauto.
Qed.

Lemma insert_principio_activo_Ok g fecha db u db' :
  insert_principio_activo g fecha db = (Ok u, db') ->
  exists pas,
    principios_activos db = Some pas /\
    (g.1.1.1 ∉ pa_principio_activo_normalizado <$> pas) /\
    db' = Database (medicamentos db)
            (Some (pas ++ [PrincipioActivo g.1.1.1 g.1.1.2 g.1.2 g.2 fecha]))
            (metadatos_sistema db) (indices db).
Proof.
  unfold insert_principio_activo. destruct (principios_activos db) as [pas|];
    [|discriminate].
  case_bool_decide as Hin; [discriminate|]. intros Heq; inversion Heq; subst. eauto.
Qed.

Lemma insert_or_replace_metadatos_Ok k v fecha db u db' :
  insert_or_replace_metadatos k v fecha db = (Ok u, db') ->
  exists meta,
    metadatos_sistema db = Some meta /\
    db' = Database (medicamentos db) (principios_activos db)
            (Some (<[k := (v, fecha)]> meta)) (indices db).
Proof.
  unfold insert_or_replace_metadatos. destruct (metadatos_sistema db) as [meta|];
    intros H; inversion H; subst; eauto.
Qed.

(** The update loop leaves the other tables alone and keeps the columns and
    the number of rows of the catalogue. *)
Lemma for_count_update_Ok (f : str * str * option str -> str) l : forall n db n' db' t,
  for_count (fun _ m => update_principio (f m) m.1.1) n l db = (Ok n', db') ->
  medicamentos db = Some t ->
  n' = (n + length l)%nat /\
  exists filas',
    length filas' = length (filas t) /\
    db' = Database (Some (TablaMedicamentos (columnas t) filas'))
            (principios_activos db) (metadatos_sistema db) (indices db).
Proof.
  induction l as [|m l IH]; simpl; intros n db n' db' t H Ht.
  - inversion H; subst. split; [lia|]. exists (filas t). split; [done|].
    rewrite (database_eta db') at 1. rewrite Ht. by destruct t.
  - apply bind_Ok in H as (u & dbm & Hu & H).
    apply update_principio_Ok in Hu as (t0 & filas0 & Ht0 & _ & Hlen & ->).
    rewrite Ht in Ht0. inversion Ht0; subst t0.
    eapply IH in H; [|reflexivity]. simpl in H.
    destruct H as (-> & filas' & Hlen' & ->). split; [lia|].
    exists filas'. split; [congruence | done].
Qed.

Lemma for_count_insert_Ok now gs : forall n db n' db' pas,
  for_count (fun i g => insert_principio_activo g (now i)) n gs db = (Ok n', db') ->
  principios_activos db = Some pas ->
  n' = (n + length gs)%nat /\
  db' = Database (medicamentos db) (Some (pas ++ filas_pa now n gs))
          (metadatos_sistema db) (indices db).
Proof.
  induction gs as [|g gs IH]; simpl; intros n db n' db' pas H Hpas.
  - inversion H; subst. split; [lia|]. rewrite app_nil_r, <- Hpas.
    apply database_eta.
  - apply bind_Ok in H as (u & dbm & Hu & H).
    apply insert_principio_activo_Ok in Hu as (pas0 & Hpas0 & _ & ->).
    rewrite Hpas in Hpas0. inversion Hpas0; subst pas0.
    eapply IH in H; [|reflexivity]. simpl in H.
    destruct H as (-> & ->). split; [lia|]. by rewrite <- app_assoc.
Qed.

Lemma filas_pa_key now gs : forall n,
  pa_principio_activo_normalizado <$> filas_pa now n gs = (fun g : grupo => g.1.1.1) <$> gs.
Proof. induction gs as [|g gs IH]; intros n; simpl; [done|]. by rewrite IH. Qed.

Lemma elem_of_filas_pa now gs pa : forall n,
  pa ∈ filas_pa now n gs ->
  exists g fecha, g ∈ gs /\ pa = PrincipioActivo g.1.1.1 g.1.1.2 g.1.2 g.2 fecha.
Proof.
  induction gs as [|g gs IH]; intros n; simpl; [by intros ?%elem_of_nil|].
  intros [->|H]%elem_of_cons.
  - exists g, (now n). split; [left | done].
  - apply IH in H as (g' & fecha & Hg' & ->). exists g', fecha. split; [by right | done].
Qed.

End Cursor.

(** ** The normalization pass *)

Section Pass.

Local Open Scope cursor_scope.

Lemma normalize_database_flag_set now db t pas meta :
  medicamentos db = Some t ->
  has_column t col_principio = true ->
  principios_activos db = Some pas ->
  metadatos_sistema db = Some meta ->
  fst <$> meta !! clave_normalizacion = Some (py "true") ->
  normalize_database now db = (Ok (cached t pas), db).
Proof.
  intros Ht Hc Hpas Hmeta Hflag. unfold normalize_database.
  erewrite bind_eq; [|unfold select_valor; rewrite Hmeta; reflexivity].
  rewrite Hflag, bool_decide_eq_true_2 by done.
  unfold _get_normalization_stats.
  erewrite bind_eq; [|unfold count_normalizados; rewrite Ht, Hc; reflexivity].
  erewrite bind_eq; [|unfold count_principios_activos; rewrite Hpas; reflexivity].
  reflexivity.
Qed.

(** The two ways in which [normalize_database] returns. *)
Lemma normalize_database_Ok now db st db1 :
  normalize_database now db = (Ok st, db1) ->
  (exists t pas meta,
      medicamentos db = Some t /\ has_column t col_principio = true /\
      principios_activos db = Some pas /\ metadatos_sistema db = Some meta /\
      fst <$> meta !! clave_normalizacion = Some (py "true") /\
      st = cached t pas /\ db1 = db)
  \/
  (exists t t1 pas0 meta,
      medicamentos db = Some t /\ principios_activos db = Some pas0 /\
      metadatos_sistema db = Some meta /\
      fst <$> meta !! clave_normalizacion <> Some (py "true") /\
      has_column t1 col_principio = true /\ columnas t1 = columnas t /\
      length (filas t1) = length (filas t) /\
      let gs := order_by_desc (fun g : grupo => g.1.2)
                  (grupo_de (filas t1) <$> tokens (filas t1)) in
      st = Estadisticas (Z.of_nat (length (filas t))) (Z.of_nat (length gs))
             (py "completada") /\
      db1 = Database (Some t1) (Some (filas_pa now 0 gs))
              (Some (<[clave_normalizacion := (py "true", now (length gs))]> meta))
              (indices db)).
Proof.
  unfold normalize_database. intros H.
  apply bind_Ok in H as (resultado & db0 & Hsel & H).
  apply select_valor_Ok in Hsel as (-> & meta & Hmeta & ->).
  case_bool_decide as Hflag.
  - left. unfold _get_normalization_stats in H.
    apply bind_Ok in H as (n1 & db' & H1 & H).
    apply bind_Ok in H as (n2 & db'' & H2 & H).
    unfold count_normalizados in H1. unfold count_principios_activos in H2.
    destruct (medicamentos db) as [t|] eqn:Ht; [|discriminate].
    destruct (has_column t col_principio) eqn:Hc; [|discriminate].
    inversion H1; subst n1 db'; clear H1.
    destruct (principios_activos db) as [pas|] eqn:Hpas; [|discriminate].
    inversion H2; subst n2 db''; clear H2.
    inversion H; subst. exists t, pas, meta. by repeat split.
  - right.
    apply bind_Ok in H as (meds & db' & Hm & H).
    apply select_medicamentos_Ok in Hm as (-> & t & Ht & ->).
    apply bind_Ok in H as (n & db2 & Hup & H).
    pose proof (for_count_update_Ok _ _ _ _ _ _ _ Hup Ht) as (-> & filas2 & Hlen2 & ->).
    clear Hup.
    apply bind_Ok in H as (u & db3 & Hdel & H).
    apply delete_principios_activos_Ok in Hdel as ([pas0 Hpas0] & ->).
    simpl in Hpas0.
    apply bind_Ok in H as (gs & db4 & Hgs & H).
    apply select_grupos_Ok in Hgs as (-> & t1 & Ht1 & Hc1 & ->).
    simpl in Ht1. inversion Ht1; subst t1; clear Ht1.
    apply bind_Ok in H as (k & db5 & Hins & H).
    pose proof (for_count_insert_Ok _ _ _ _ _ _ _ Hins eq_refl) as (-> & ->).
    clear Hins.
    apply bind_Ok in H as (u' & db6 & Hmark & H).
    apply insert_or_replace_metadatos_Ok in Hmark as (meta' & Hmeta' & ->).
    simpl in Hmeta'. rewrite Hmeta in Hmeta'. inversion Hmeta'; subst meta'.
    inversion H; subst; clear H. simpl.
    exists t, (TablaMedicamentos (columnas t) filas2), pas0, meta.
    rewrite length_map. by repeat split.
Qed.

End Pass.

(** C1. On a store on which [normalize_database] has returned, a second call
    finds the completion flag set: it returns the store unchanged, with the
    number of rows whose canonical ingredient is not empty, the number of
    group rows, and the state [ya_completada]. *)
Theorem normalize_database_idempotent now now' db st db1 :
  normalize_database now db = (Ok st, db1) ->
  exists t pas,
    medicamentos db1 = Some t /\ principios_activos db1 = Some pas /\
    normalize_database now' db1 =
      (Ok (Estadisticas
             (Z.of_nat (length (filter (fun m => not_empty (principio_activo_normalizado m) = true)
                                  (filas t))))
             (Z.of_nat (length pas))
             (py "ya_completada")),
       db1).
Proof.
  intros H. apply normalize_database_Ok in H as [H|H].
  - destruct H as (t & pas & meta & Ht & Hc & Hpas & Hmeta & Hflag & _ & ->).
    exists t, pas. split; [done|]. split; [done|].
    by eapply normalize_database_flag_set.
  - destruct H as (t & t1 & pas0 & meta & _ & _ & _ & _ & Hc & _ & _ & _ & ->).
    eexists t1, _. split; [done|]. split; [done|].
    eapply normalize_database_flag_set; try done.
    by rewrite lookup_insert_eq.
Qed.

(** ** The group table after a pass *)

Section Groups.

Lemma order_by_desc_Permutation {A} (total : A -> Z) (l : list A) :
  order_by_desc total l ≡ₚ l.
Proof. unfold order_by_desc. apply merge_sort_Permutation. Qed.

Lemma elem_of_order_by_desc {A} (total : A -> Z) (l : list A) x :
  x ∈ order_by_desc total l <-> x ∈ l.
Proof. by rewrite order_by_desc_Permutation. Qed.

Lemma not_empty_Some s : not_empty (Some s) = true <-> s <> [].
Proof. destruct s; simpl; split; congruence. Qed.

Lemma elem_of_miembros token l m :
  m ∈ miembros token l <-> m ∈ l /\ principio_activo_normalizado m = Some token.
Proof. unfold miembros. rewrite list_elem_of_filter. tauto. Qed.

Lemma miembros_nonempty token l :
  miembros token l <> [] <-> exists m, m ∈ l /\ principio_activo_normalizado m = Some token.
Proof.
  split.
  - destruct (miembros token l) as [|m ms] eqn:E; [done|]. intros _.
    exists m. apply elem_of_miembros. rewrite E. left.
  - intros (m & Hm) E. apply elem_of_miembros in Hm. rewrite E in Hm.
    by apply elem_of_nil in Hm.
Qed.

(** The tokens of the grouping query: the non-empty canonical values that
    some row carries, each once. *)
Lemma elem_of_tokens l token :
  token ∈ tokens l <-> token <> [] /\ miembros token l <> [].
Proof.
  unfold tokens. rewrite elem_of_remove_dups, list_elem_of_omap, miembros_nonempty.
  split.
  - intros (m & [Hne Hm]%list_elem_of_filter & Hp). rewrite Hp in Hne.
    apply not_empty_Some in Hne. eauto.
  - intros (Hne & m & Hm & Hp). exists m. split; [|done].
    apply list_elem_of_filter. split; [|done]. rewrite Hp. by apply not_empty_Some.
Qed.

Lemma NoDup_tokens l : NoDup (tokens l).
Proof. apply NoDup_remove_dups. Qed.

Lemma grupo_de_token l : (fun g : grupo => g.1.1.1) <$> (grupo_de l <$> tokens l) = tokens l.
Proof.
  rewrite <- list_fmap_compose. rewrite <- (list_fmap_id (tokens l)) at 2.
  by apply list_fmap_ext.
Qed.

(** The keys of the rebuilt table are the tokens, in some order. *)
Lemma filas_pa_keys now l :
  pa_principio_activo_normalizado <$>
    filas_pa now 0 (order_by_desc (fun g : grupo => g.1.2) (grupo_de l <$> tokens l))
  ≡ₚ tokens l.
Proof.
  rewrite filas_pa_key, order_by_desc_Permutation. by rewrite grupo_de_token.
Qed.

Lemma elem_of_filas_pa_grupos now l pa :
  pa ∈ filas_pa now 0 (order_by_desc (fun g : grupo => g.1.2) (grupo_de l <$> tokens l)) ->
  exists token fecha,
    token ∈ tokens l /\
    pa = PrincipioActivo token
           (group_concat (py ",") (descripcion <$> miembros token l))
           (Z.of_nat (length (miembros token l)))
           (group_concat (py ",") (grupo_terapeutico <$> miembros token l))
           fecha.
Proof.
  intros (g & fecha & Hg & ->)%elem_of_filas_pa.
  apply elem_of_order_by_desc, list_elem_of_fmap in Hg as (token & -> & Htoken).
  by exists token, fecha.
Qed.

Lemma filter_key_absent {A B} `{EqDecision B} (f : A -> B) (l : list A) b :
  b ∉ f <$> l -> filter (fun y => f y = b) l = [].
Proof.
  induction l as [|a l IH]; simpl; intros Hb; [done|].
  apply not_elem_of_cons in Hb as [Hne Hb].
  rewrite filter_cons_False by congruence. by apply IH.
Qed.

Lemma filter_key_unique {A B} `{EqDecision B} (f : A -> B) (l : list A) x :
  NoDup (f <$> l) -> x ∈ l -> filter (fun y => f y = f x) l = [x].
Proof.
  induction l as [|a l IH]; simpl; intros Hnd Hx; [by apply elem_of_nil in Hx|].
  apply NoDup_cons in Hnd as [Ha Hnd].
  apply elem_of_cons in Hx as [->|Hx].
  - rewrite filter_cons_True by done. by rewrite filter_key_absent.
  - rewrite filter_cons_False; [by apply IH|].
    intros Hfa. apply Ha. rewrite Hfa. apply list_elem_of_fmap. eauto.
Qed.

End Groups.

(** C2. After a pass of [normalize_database] that ran to completion, every
    non-empty canonical token that some catalogue row carries has exactly one
    row of [principios_activos], whose count is the number of catalogue rows
    with that token; and every row of [principios_activos] has a non-empty
    token that some catalogue row carries. *)
Theorem normalize_database_group_table now db st db1 :
  normalize_database now db = (Ok st, db1) ->
  estado st = py "completada" ->
  exists t1 pas1,
    medicamentos db1 = Some t1 /\ principios_activos db1 = Some pas1 /\
    (forall token,
        token <> [] -> miembros token (filas t1) <> [] ->
        exists pa,
          filter (fun pa => pa_principio_activo_normalizado pa = token) pas1 = [pa] /\
          total_medicamentos pa = Z.of_nat (length (miembros token (filas t1)))) /\
    (forall pa,
        pa ∈ pas1 ->
        pa_principio_activo_normalizado pa <> [] /\
        miembros (pa_principio_activo_normalizado pa) (filas t1) <> []).
Proof.
  intros H Hest. apply normalize_database_Ok in H as [H|H].
  { destruct H as (t & pas & meta & _ & _ & _ & _ & _ & -> & _). discriminate. }
  destruct H as (t & t1 & pas0 & meta & _ & _ & _ & _ & _ & _ & _ & _ & ->).
  eexists t1, _. split; [done|]. split; [done|]. split.
  - intros token Hne Hms.
    assert (Htok : token ∈ tokens (filas t1)) by by apply elem_of_tokens.
    rewrite <- (filas_pa_keys now) in Htok.
    apply list_elem_of_fmap in Htok as (pa & -> & Hpa).
    exists pa. split.
    + apply (filter_key_unique pa_principio_activo_normalizado); [|done].
      rewrite filas_pa_keys. apply NoDup_tokens.
    + by apply elem_of_filas_pa_grupos in Hpa as (token & fecha & _ & ->).
  - intros pa (token & fecha & Htok & ->)%elem_of_filas_pa_grupos. simpl.
    by apply elem_of_tokens.
Qed.

(** ** The example catalogue *)

(** On the third record of the example the token is not IBUPROFENO: the
    form noun of the pattern is [capsula], without accent, so the accented
    word of the text stays in the token. *)
Lemma ejemplo_tokens_not_as_specified :
  Escenario.tokens_de (Escenario.normalizado Escenario.reloj) !! 2%nat
  = Some (Some Escenario.ibuprofeno_capsula) /\
  Escenario.ibuprofeno_capsula <> py "IBUPROFENO".
Proof. split; [by vm_compute|]. vm_compute. discriminate. Qed.

(** C3. What the code does on the example catalogue: the pass returns; the
    canonical tokens are PARACETAMOL, PARACETAMOL, IBUPROFENO CÁPSULA and
    METFORMINA, the third one keeping the form noun that the specification
    expects to be stripped; the group table has three rows, the one of
    PARACETAMOL with count 2; and the search for "paracetamol" returns that
    group alone, with the keys of its two records. *)
Theorem ejemplo_catalogo now :
  (exists st, normalize_database now Escenario.preparado
              = (Ok st, Escenario.normalizado now)
              /\ estado st = py "completada") /\
  Escenario.tokens_de (Escenario.normalizado now)
  = [Some (py "PARACETAMOL"); Some (py "PARACETAMOL");
     Some Escenario.ibuprofeno_capsula; Some (py "METFORMINA")] /\
  (exists pas pa,
      principios_activos (Escenario.normalizado now) = Some pas /\
      length pas = 3%nat /\
      filter (fun pa => pa_principio_activo_normalizado pa = py "PARACETAMOL") pas = [pa] /\
      total_medicamentos pa = 2%Z) /\
  (exists e,
      (find_similar_medications (py "paracetamol") (Escenario.normalizado now)).1
      = Ok [e] /\
      s_principio_activo e = py "PARACETAMOL" /\
      s_total_medicamentos e = 2%Z /\
      s_claves e = [py "010.000.0104.00"; py "010.000.0105.00"]).
Proof.
  split; [|split; [|split]].
  - eexists. split; [vm_compute; reflexivity | reflexivity].
  - vm_compute. reflexivity.
  - do 2 eexists. split; [vm_compute; reflexivity|]. by vm_compute.
  - eexists. split; [vm_compute; reflexivity|]. by vm_compute.
Qed.

(** ** The salt step of the canonicalizer *)

Section Sales.












End Sales.



(** ** Coverage *)

Section Coverage.

Import Inspector QuickCheck.
Local Open Scope Z_scope.

Lemma length_filter_true {A} (l : list A) :
  length (filter (fun _ : A => true = true) l) = length l.
Proof.
  induction l as [|a l IH]; [done|]. rewrite filter_cons_True by done.
  simpl. by rewrite IH.
Qed.

(** Every row is either normalized or not. *)
Lemma length_normalizados (l : list medicamento) :
  (length (filter (fun m => not_empty (principio_activo_normalizado m) = true) l)
   + length (filter (fun m => sin_normalizar m = true) l) = length l)%nat.
Proof.
  induction l as [|m l IH]; [done|]. unfold sin_normalizar in *.
  destruct (not_empty (principio_activo_normalizado m)) eqn:E.
  - rewrite filter_cons_True, filter_cons_False by (rewrite E; done). simpl. lia.
  - rewrite filter_cons_False, filter_cons_True by (rewrite E; done). simpl. lia.
Qed.

Lemma count_all_eq db t :
  medicamentos db = Some t -> count_all db = Z.of_nat (length (filas t)).
Proof.
  intros Ht. unfold count_all, count_where. rewrite Ht.
  by rewrite length_filter_true.
Qed.

Lemma count_normalized_eq db t :
  medicamentos db = Some t ->
  count_where (fun m => not_empty (principio_activo_normalizado m)) db
  = Z.of_nat (length (filas t)) - count_where sin_normalizar db.
Proof.
  intros Ht. unfold count_where. rewrite Ht.
  pose proof (length_normalizados (filas t)). lia.
Qed.

Lemma count_where_nonneg p db : 0 <= count_where p db.
Proof. unfold count_where. destruct (medicamentos db); lia. Qed.

End Coverage.

(** The two reporters do not both give the coverage to two decimals, nor 0
    for an empty catalogue: with two of three records normalized the quick
    checker reports 66.7, and for an empty catalogue the inspector reports no
    quality figures at all. *)
Lemma coverage_not_as_specified :
  (exists r,
      QuickCheck.quick_status true Escenario.parcial = QuickCheck.Checked r /\
      QuickCheck.normalization_percentage r
      <> PyFloat.round (PrimFloat.mul (PyFloat.truediv (3 - 1) 3) (PyFloat.of_Z 100)) 2) /\
  Inspector.quality
    (Inspector.analyze_active_ingredients
       (Escenario.vacio_normalizado Escenario.reloj)) = None.
Proof.
  split; [|by vm_compute].
  eexists. split; [reflexivity|]. intros H.
  apply (f_equal Prim2SF) in H. vm_compute in H. discriminate.
Qed.

(** C5, amended. With [T] catalogue rows of which [U] have a NULL or empty
    canonical ingredient, the inspector reports
    [round((T - U) / T * 100, 2)] when [T > 0] and no quality figures when
    [T = 0]; the quick checker reports [round((T - U) / T * 100, 1)], to one
    decimal, when [T > 0], and 0 when [T = 0]. *)
Theorem coverage_reported db t :
  medicamentos db = Some t ->
  has_column t col_principio = true ->
  let T := Z.of_nat (length (filas t)) in
  let U := Z.of_nat (length (filter (fun m => Inspector.sin_normalizar m = true) (filas t))) in
  let percent := PrimFloat.mul (PyFloat.truediv (T - U) T) (PyFloat.of_Z 100) in
  Inspector.quality (Inspector.analyze_active_ingredients db)
  = (if (0 <? T)%Z
     then Some (Inspector.NormalizationQuality T (T - U) U (PyFloat.round percent 2))
     else None) /\
  exists r,
    QuickCheck.quick_status true db = QuickCheck.Checked r /\
    QuickCheck.normalization_percentage r
    = (if (0 <? T)%Z then PyFloat.round percent 1 else PyFloat.of_Z 0).
Proof.
  intros Ht Hc T U percent. split.
  - unfold Inspector.analyze_active_ingredients. cbn [Inspector.quality].
    unfold Inspector.has_normalization_column. rewrite Ht, Hc.
    rewrite (count_all_eq db t Ht). fold T.
    replace (Inspector.count_where Inspector.sin_normalizar db) with U
      by (unfold Inspector.count_where; by rewrite Ht).
    reflexivity.
  - unfold QuickCheck.quick_status. cbn [negb]. rewrite Ht.
    eexists. split; [reflexivity|]. cbn [QuickCheck.normalization_percentage].
    unfold QuickCheck.normalization_percent, QuickCheck.normalized_count.
    unfold Inspector.has_normalization_column. rewrite Ht, Hc.
    rewrite (count_all_eq db t Ht). fold T.
    rewrite (count_normalized_eq db t Ht). fold T.
    replace (Inspector.count_where Inspector.sin_normalizar db) with U
      by (unfold Inspector.count_where; by rewrite Ht).
    by destruct (0 <? T)%Z.
Qed.


(** ** Quick status *)


(** ** Recommendations *)

Section Recommendations.

Import Inspector.
Local Open Scope Z_scope.

Lemma elem_of_append_if c r l x : x ∈ l -> x ∈ append_if c r l.
Proof. unfold append_if. destruct c; [|done]. intros. apply elem_of_app. by left. Qed.

Lemma append_if_nil c r l : append_if c r l = [] <-> c = false /\ l = [].
Proof.
  unfold append_if. destruct c.
  - split; [|by intros [? _]]. by intros [_ ?]%app_eq_nil.
  - tauto.
Qed.

Lemma recommendations_nil st :
  recommendations st = [] <->
  normalization_tables_exist st = true /\ normalization_completed st = true /\
  (0 <? medicamentos_without_normalization st) = false /\
  optimization_indexes_exist st = true /\
  (active_ingredients_found st =? 0) = false.
Proof.
  unfold recommendations. rewrite !append_if_nil, !negb_false_iff. tauto.
Qed.

Lemma without_normalization_nonneg db :
  0 <= medicamentos_without_normalization (check_normalization_status db).
Proof.
  unfold check_normalization_status. cbn [medicamentos_without_normalization].
  destruct (has_normalization_column db); [apply count_where_nonneg | lia].
Qed.

End Recommendations.

(** With the completion flag set, no record left to normalize and the
    ingredient indexes in place, the list is not always empty: for an empty
    catalogue that was set up and normalized it holds the advice to build the
    group table. *)
Lemma recommendations_not_empty :
  let db := Escenario.vacio_normalizado Escenario.reloj in
  let st := Inspector.check_normalization_status db in
  Inspector.normalization_completed st = true /\
  Inspector.medicamentos_without_normalization st = 0%Z /\
  Inspector.optimization_indexes_exist st = true /\
  Inspector.r_recommendations (Inspector.get_inspection_report db)
  = [Inspector.GenerarTabla].
Proof. by vm_compute. Qed.

(** C7, amended. When the normalization tables do not both exist, the
    recommendations hold the advice to create them. The list is empty exactly
    when the tables exist, the completion flag is set, no record is left to
    normalize, the ingredient indexes exist and the group table has at least
    one row. *)
Theorem recommendations_firing db :
  let st := Inspector.check_normalization_status db in
  let recs := Inspector.r_recommendations (Inspector.get_inspection_report db) in
  (Inspector.normalization_tables_exist st = false -> Inspector.CrearTablas ∈ recs) /\
  (recs = [] <->
   Inspector.normalization_tables_exist st = true /\
   Inspector.normalization_completed st = true /\
   Inspector.medicamentos_without_normalization st = 0%Z /\
   Inspector.optimization_indexes_exist st = true /\
   Inspector.active_ingredients_found st <> 0%Z).
Proof.
  intros st recs. subst recs. cbn [Inspector.get_inspection_report Inspector.r_recommendations].
  fold st. split.
  - intros Hno. unfold Inspector.recommendations. rewrite Hno.
    do 4 apply elem_of_append_if. cbn. left.
  - rewrite recommendations_nil, Z.ltb_ge, Z.eqb_neq.
    pose proof (without_normalization_nonneg db) as Hge. fold st in Hge.
    intuition lia.
Qed.

(** ** Normalization examples *)

(** The flag does not fold case: a record whose generic name is the
    canonical token in lower case is reported with the flag set, although the
    two are equal after case-folding. *)
Lemma process_applied_not_case_folded :
  exists e,
    e ∈ Inspector.find_normalization_examples (fun l => l) [] Escenario.parcial /\
    Inspector.original (Inspector.normalization_applied e) = py "paracetamol" /\
    Inspector.normalized (Inspector.normalization_applied e) = py "PARACETAMOL" /\
    Inspector.process_applied (Inspector.normalization_applied e) = true /\
    Inspector.spec_transform_applied
      (Inspector.original (Inspector.normalization_applied e))
      (Inspector.normalized (Inspector.normalization_applied e)) = false.
Proof.
  eexists. split; [vm_compute; left|]. by vm_compute.
Qed.

(** C9, amended. In every example of [find_normalization_examples], the
    original text is the generic name if there is one and the description
    otherwise, and the flag is set exactly when that text and the canonical
    token are different strings, letter case included. *)
Theorem process_applied_iff random search_term db e :
  e ∈ Inspector.find_normalization_examples random search_term db ->
  let p := Inspector.normalization_applied e in
  Inspector.original p
  = opt_or_else (Inspector.generic_name e) (Inspector.original_description e) /\
  Inspector.normalized p = Inspector.normalized_ingredient e /\
  (Inspector.process_applied p = true <->
   Inspector.original p <> Inspector.normalized p).
Proof.
  unfold Inspector.find_normalization_examples.
  destruct (medicamentos db) as [t|]; [|by intros ?%elem_of_nil].
  destruct (has_column t col_principio); [|by intros ?%elem_of_nil].
  intros (m & -> & _)%list_elem_of_fmap. cbn.
  split; [done|]. split; [done|].
  unfold PyStr.eqb. rewrite negb_true_iff, bool_decide_eq_false. done.
Qed.

(** ** Schema setup *)

Section Setup.

Local Open Scope cursor_scope.

(** The guarded [ALTER TABLE] never raises: whatever makes the statement
    fail is an [OperationalError], and the handler passes over it. *)
Lemma try_alter db :
  try_except_OperationalError alter_table_add_column_principio (ret tt) db
  = (Ok tt, tras_alter db).
Proof.
  unfold try_except_OperationalError, tras_alter, alter_table_add_column_principio.
  destruct (medicamentos db) as [t|]; [|done].
  by destruct (has_column t col_principio).
Qed.

Lemma has_column_added t filas' c :
  has_column t c = true ->
  has_column (TablaMedicamentos (columnas t ++ [col_principio]) filas') c = true.
Proof.
  unfold has_column. rewrite !orb_true_iff, !bool_decide_eq_true.
  intros [?|?]; [by left|right]. apply elem_of_app. by left.
Qed.

Lemma has_column_new t filas' :
  has_column (TablaMedicamentos (columnas t ++ [col_principio]) filas') col_principio = true.
Proof.
  unfold has_column. rewrite orb_true_iff, !bool_decide_eq_true. right.
  apply elem_of_app. right. left.
Qed.

Lemma tras_alter_None db : medicamentos db = None -> tras_alter db = db.
Proof. unfold tras_alter. by intros ->. Qed.

Lemma tras_alter_Some db t :
  medicamentos db = Some t ->
  exists t',
    medicamentos (tras_alter db) = Some t' /\
    has_column t' col_principio = true /\
    (forall c, has_column t c = true -> has_column t' c = true).
Proof.
  intros Ht. unfold tras_alter, alter_table_add_column_principio. rewrite Ht.
  destruct (has_column t col_principio) eqn:Hc.
  - exists t. by rewrite Ht.
  - eexists. split; [reflexivity|]. split; [apply has_column_new|].
    intros c. apply has_column_added.
Qed.



Lemma create_index_Ok name cols db u db' :
  create_index name cols db = (Ok u, db') ->
  medicamentos db' = medicamentos db /\
  principios_activos db' = principios_activos db /\
  metadatos_sistema db' = metadatos_sistema db /\
  is_Some (medicamentos db) /\
  is_Some (indices db' !! name) /\
  (forall n, is_Some (indices db !! n) -> is_Some (indices db' !! n)).
Proof.
  unfold create_index. destruct (medicamentos db) as [t|] eqn:Ht; [|discriminate].
  destruct (indices db !! name) as [i|] eqn:Hi.
  - intros H; inversion H; subst. rewrite Ht, Hi. eauto 10.
  - destruct (filter _ cols); [|discriminate].
    intros H; inversion H; subst. cbn. rewrite lookup_insert_eq.
    repeat split; eauto. intros n Hn.
    destruct (decide (name = n)) as [->|Hne]; [by rewrite lookup_insert_eq|].
    by rewrite lookup_insert_ne.
Qed.


Lemma setup_unfold db :
  setup_optimization_tables db
  = for_each (fun indice => create_index indice.1 indice.2) indices_optimizados
      (tras_tablas (tras_alter db)).
Proof.
  unfold setup_optimization_tables.
  erewrite bind_eq; [|apply try_alter].
  unfold bind, create_table_principios_activos, create_table_metadatos_sistema,
    tras_tablas.
  destruct (tras_alter db) as [m [pas|] [meta|] idx]; reflexivity.
Qed.

(** The index loop, on any list of indexes. *)
Lemma for_each_index_Ok l : forall db u db',
  for_each (fun indice : str * list str => create_index indice.1 indice.2) l db
  = (Ok u, db') ->
  medicamentos db' = medicamentos db /\
  principios_activos db' = principios_activos db /\
  metadatos_sistema db' = metadatos_sistema db /\
  (l <> [] -> is_Some (medicamentos db)) /\
  Forall (fun indice : str * list str => is_Some (indices db' !! indice.1)) l /\
  (forall n, is_Some (indices db !! n) -> is_Some (indices db' !! n)).
Proof.
  induction l as [|i l IH]; intros db u db' H; cbn [for_each] in H.
  - inversion H; subst. by repeat split.
  - apply bind_Ok in H as (u1 & db1 & H1 & H).
    apply create_index_Ok in H1 as (Hm1 & Hp1 & Hme1 & Hs1 & Hi1 & Hmono1).
    apply IH in H as (Hm & Hp & Hme & _ & Hall & Hmono).
    repeat split; try congruence; eauto.
Qed.



(** A successful setup leaves the schema set up. *)
Lemma setup_Ok_configurada db u db' :
  setup_optimization_tables db = (Ok u, db') -> configurada db'.
Proof.
  rewrite setup_unfold. intros H.
  apply for_each_index_Ok in H as (Hm & Hp & Hme & Hs & Hall & _).
  unfold tras_tablas in *.
  cbn [medicamentos principios_activos metadatos_sistema] in *.
  destruct Hs as [t Ht]; [done|].
  destruct (medicamentos db) as [t0|] eqn:Ht0.
  - destruct (tras_alter_Some db t0 Ht0) as (t' & Ht' & Hc & _).
    unfold configurada. rewrite Hm, Hp, Hme. eauto 10.
  - rewrite (tras_alter_None db Ht0) in Ht. congruence.
Qed.





End Setup.



(** ** Splitting what was concatenated *)

Section Split.

Lemma contains_cons sep c s :
  contains sep (c :: s) = false ->
  starts_with sep (c :: s) = false /\ contains sep s = false.
Proof. cbn [contains]. by intros ?%orb_false_iff. Qed.

(** A text without the separator is one field. *)
Lemma split_go_no_sep sep s : forall cur,
  contains sep s = false -> split_go sep O cur s = [cur ++ s].
Proof.
  induction s as [|c s IH]; intros cur H; cbn [split_go].
  - by rewrite app_nil_r.
  - apply contains_cons in H as [Hs Hc]. rewrite Hs, IH by done.
    by rewrite <- app_assoc.
Qed.

Lemma split_no_sep sep s : contains sep s = false -> split sep s = [s].
Proof. apply split_go_no_sep. Qed.

(** A field without the separator character, then the separator. *)
Lemma split_go_field c k : forall cur rest,
  contains [c] k = false ->
  split_go [c] O cur (k ++ c :: rest) = (cur ++ k) :: split_go [c] O [] rest.
Proof.
  induction k as [|a k IH]; intros cur rest H; cbn [app split_go].
  - cbn [starts_with]. rewrite N.eqb_refl. cbn. by rewrite app_nil_r.
  - apply contains_cons in H as [Hs Hc]. cbn [starts_with] in *.
    rewrite andb_true_r in *. rewrite Hs, IH by done. by rewrite <- app_assoc.
Qed.

(** Splitting on the character that joined fields without it gives the
    fields back. *)
Lemma split_go_join c ks : forall k cur,
  Forall (fun k => contains [c] k = false) (k :: ks) ->
  split_go [c] O cur (join [c] (k :: ks)) = (cur ++ k) :: ks.
Proof.
  induction ks as [|k' ks IH]; intros k cur [Hk Hks]%Forall_cons.
  - cbn [join]. by apply split_go_no_sep.
  - change (join [c] (k :: k' :: ks)) with (k ++ c :: join [c] (k' :: ks)).
    rewrite split_go_field by done. f_equal. by rewrite IH.
Qed.

Lemma split_join c ks :
  ks <> [] -> Forall (fun k => contains [c] k = false) ks ->
  split [c] (join [c] ks) = ks.
Proof.
  destruct ks as [|k ks]; [done|]. intros _ H. unfold split.
  by rewrite split_go_join.
Qed.

Lemma starts_with_app sep : forall x c y,
  c ∉ sep -> starts_with sep (x ++ c :: y) = true -> starts_with sep x = true.
Proof.
  induction sep as [|a sep IH]; intros x c y Hc H; [by destruct x|].
  apply not_elem_of_cons in Hc as [Hne Hc].
  destruct x as [|b x]; cbn [app starts_with] in *.
  - apply andb_true_iff in H as [H%N.eqb_eq _]. congruence.
  - apply andb_true_iff in H as [Hab H]. rewrite Hab. cbn. by eapply IH.
Qed.

(** Joining with a character that is not in the separator brings no new
    occurrence of the separator. *)
Lemma contains_app sep x c y :
  c ∉ sep -> sep <> [] ->
  contains sep x = false -> contains sep y = false ->
  contains sep (x ++ c :: y) = false.
Proof.
  intros Hc Hsep Hx Hy. induction x as [|b x IH]; cbn [app contains].
  - rewrite Hy, orb_false_r. destruct sep as [|a sep]; [done|].
    apply not_elem_of_cons in Hc as [Hne _]. cbn [starts_with].
    by rewrite (proj2 (N.eqb_neq a c)) by congruence.
  - apply contains_cons in Hx as [Hs Hx]. rewrite IH, orb_false_r by done.
    apply not_true_is_false. intros H.
    apply (starts_with_app sep (b :: x) c y Hc) in H. congruence.
Qed.

Lemma contains_join sep c ds :
  c ∉ sep -> sep <> [] ->
  Forall (fun d => contains sep d = false) ds ->
  contains sep (join [c] ds) = false.
Proof.
  intros Hc Hsep. induction ds as [|d ds IH]; intros H.
  - destruct sep; [done|]. reflexivity.
  - apply Forall_cons in H as [Hd Hds]. destruct ds as [|d' ds]; [done|].
    change (join [c] (d :: d' :: ds)) with (d ++ c :: join [c] (d' :: ds)).
    apply contains_app; auto.
Qed.

Lemma truthy_join_two c d d' ds : truthy (join [c] (d :: d' :: ds)) = true.
Proof.
  change (join [c] (d :: d' :: ds)) with (d ++ c :: join [c] (d' :: ds)).
  by destruct d.
Qed.

Lemma truthy_join c ks : ks <> [] -> ks <> [[]] -> truthy (join [c] ks) = true.
Proof.
  destruct ks as [|k [|k' ks]]; [done| |intros; apply truthy_join_two].
  intros _ Hk. cbn [join]. destruct k; [done|reflexivity].
Qed.

Lemma truthy_true s : truthy s = true <-> s <> [].
Proof. by destruct s. Qed.

Lemma group_concat_Some sep l : l <> [] -> group_concat sep l = Some (join sep l).
Proof. by destruct l. Qed.

End Split.

(** ** Search results *)

Section Search.

Local Open Scope cursor_scope.

(** Every entry of the search comes from a group row that matches the
    pattern and has members in the catalogue. *)
Lemma find_similar_medications_entry search_term db res db' e :
  find_similar_medications search_term db = (Ok res, db') ->
  e ∈ res ->
  exists t pas pa,
    medicamentos db = Some t /\ principios_activos db = Some pas /\
    pa ∈ pas /\
    miembros (pa_principio_activo_normalizado pa) (filas t) <> [] /\
    let ms := miembros (pa_principio_activo_normalizado pa) (filas t) in
    e = Similares (pa_principio_activo_normalizado pa) (total_medicamentos pa)
          (split_if (py ", ") (grupos_terapeuticos pa))
          (split_if (py "|") (group_concat (py "|") (clave <$> ms)))
          (split_if (py " | ") (group_concat (py ",") (descripcion <$> ms))).
Proof.
  unfold find_similar_medications. intros H He.
  apply bind_Ok in H as (rows & db0 & Hsel & H). inversion H; subst; clear H.
  unfold select_similares in Hsel.
  destruct (principios_activos db) as [pas|] eqn:Hpas; [|discriminate].
  destruct (medicamentos db) as [t|] eqn:Ht; [|discriminate].
  destruct (has_column t col_principio); [|discriminate].
  inversion Hsel; subst; clear Hsel.
  apply list_elem_of_fmap in He as (row & -> & Hrow).
  apply elem_of_order_by_desc, list_elem_of_fmap in Hrow as (pa & -> & Hpa).
  apply list_elem_of_filter in Hpa as [[_ Hms] Hpa].
  by exists t, pas, pa.
Qed.

End Search.

(** Two entries whose lists do not have the expected length. For a record
    without therapeutic group the concatenation is empty and the list of
    groups is empty, not of one element. And once a record of a group was
    ingested again after the pass, the entry still carries the stored count
    2 with the one key that joins. *)
Lemma find_similar_medications_not_as_specified :
  (let db := Escenario.sin_grupo_normalizado Escenario.reloj in
   exists e,
     (find_similar_medications (py "metformina") db).1 = Ok [e] /\
     s_total_medicamentos e = 1%Z /\
     (exists t, medicamentos db = Some t /\
        Forall (fun m => contains (py ", ") (grupo_terapeutico m) = false)
          (miembros (s_principio_activo e) (filas t))) /\
     length (s_grupos_terapeuticos e) <> 1%nat) /\
  (let db := Escenario.reingresado Escenario.reloj in
   exists e,
     (find_similar_medications (py "paracetamol") db).1 = Ok [e] /\
     s_total_medicamentos e = 2%Z /\
     s_claves e = [py "010.000.0104.00"]).
Proof.
  split.
  - eexists. split; [vm_compute; reflexivity|]. split; [reflexivity|]. split.
    + eexists. split; [vm_compute; reflexivity|]. vm_compute.
      repeat constructor.
    + by vm_compute.
  - eexists. split; [vm_compute; reflexivity|]. by vm_compute.
Qed.

(** C10, amended. On a store that a pass of [normalize_database] has just
    written, let [ms] be the catalogue rows that carry the token of an entry
    of [find_similar_medications]. The count of the entry is the number of
    those rows. Its key list is the keys of those rows, as many as the
    count, when no key holds ['|'] and the keys are not one empty key. Its
    description list has one element when there are two rows or more and no
    description holds [" | "]. Its therapeutic-group list has one element
    when the concatenated groups are not empty and hold no [", "], and is
    empty when they are empty. *)
Theorem find_similar_medications_fields now db st db1 search_term res db2 e :
  normalize_database now db = (Ok st, db1) ->
  estado st = py "completada" ->
  find_similar_medications search_term db1 = (Ok res, db2) ->
  e ∈ res ->
  exists t1,
    medicamentos db1 = Some t1 /\
    let ms := miembros (s_principio_activo e) (filas t1) in
    let grupos := join (py ",") (grupo_terapeutico <$> ms) in
    s_total_medicamentos e = Z.of_nat (length ms) /\
    (Forall (fun m => contains (py "|") (clave m) = false) ms ->
     clave <$> ms <> [[]] ->
     s_claves e = clave <$> ms /\
     Z.of_nat (length (s_claves e)) = s_total_medicamentos e) /\
    ((1 < length ms)%nat ->
     Forall (fun m => contains (py " | ") (descripcion m) = false) ms ->
     length (s_descripciones e) = 1%nat) /\
    (grupos <> [] -> contains (py ", ") grupos = false ->
     length (s_grupos_terapeuticos e) = 1%nat) /\
    (grupos = [] -> s_grupos_terapeuticos e = []).
Proof.
  intros Hnorm Hest Hfind He.
  apply normalize_database_Ok in Hnorm as [H|H].
  { destruct H as (t & pas & meta & _ & _ & _ & _ & _ & -> & _). discriminate. }
  destruct H as (t & t1 & pas0 & meta & _ & _ & _ & _ & _ & _ & _ & _ & ->).
  destruct (find_similar_medications_entry _ _ _ _ _ Hfind He)
    as (t1' & pas & pa & Ht1 & Hpas & Hpa & Hms & ->).
  cbn [medicamentos principios_activos] in Ht1, Hpas.
  inversion Ht1; subst t1'; clear Ht1. inversion Hpas; subst pas; clear Hpas.
  apply elem_of_filas_pa_grupos in Hpa as (token & fecha & _ & ->).
  cbn [pa_principio_activo_normalizado total_medicamentos grupos_terapeuticos] in *.
  exists t1. split; [done|].
  cbn [s_principio_activo s_total_medicamentos s_claves s_descripciones
       s_grupos_terapeuticos].
  set (ms := miembros token (filas t1)) in *.
  change (py "|") with [124%N] in *. change (py ",") with [44%N] in *.
  assert (Hfmap : forall (f : medicamento -> str), f <$> ms <> []).
  { intros f Hf. apply fmap_nil_inv in Hf. done. }
  rewrite !group_concat_Some by done.
  split; [done|]. split; [|split; [|split]].
  - intros Hbar Hkeys. unfold split_if.
    rewrite truthy_join by done.
    rewrite split_join; [|done|by apply Forall_fmap].
    split; [done|]. by rewrite length_fmap.
  - intros Hlen Hdesc. unfold split_if.
    destruct ms as [|m [|m' ms']]; [simpl in Hlen; lia..|].
    rewrite !fmap_cons, truthy_join_two.
    rewrite split_no_sep; [done|].
    apply contains_join; [by apply (bool_decide_unpack _); vm_compute | done |].
    rewrite <- !fmap_cons. by apply Forall_fmap.
  - intros Hne Hsep. unfold split_if.
    rewrite (proj2 (truthy_true _)) by done. by rewrite split_no_sep.
  - intros Hempty. unfold split_if. by rewrite Hempty.
Qed.

(** ** The pass returns *)

Section Returns.

Local Open Scope cursor_scope.

Lemma for_count_update_returns (f : str * str * option str -> str) l : forall n db t,
  medicamentos db = Some t -> has_column t col_principio = true ->
  exists db',
    for_count (fun _ m => update_principio (f m) m.1.1) n l db
    = (Ok (n + length l)%nat, db').
Proof.
  induction l as [|m l IH]; intros n db t Ht Hc; cbn [for_count length].
  - exists db. unfold ret. do 2 f_equal. lia.
  - destruct (update_principio (f m) m.1.1 db) as [r db1] eqn:Hu.
    assert (Hu' := Hu). unfold update_principio in Hu'. rewrite Ht, Hc in Hu'.
    inversion Hu'; subst r; clear Hu'.
    destruct (IH (S n) db1 (TablaMedicamentos (columnas t)
                (filas (default t (medicamentos db1))))) as [db' H].
    + subst db1. reflexivity.
    + exact Hc.
    + exists db'. erewrite bind_eq; [|exact Hu]. rewrite H. do 2 f_equal. lia.
Qed.

Lemma for_count_insert_returns now gs : forall n db pas,
  principios_activos db = Some pas ->
  NoDup ((fun g : grupo => g.1.1.1) <$> gs) ->
  (forall g, g ∈ gs -> g.1.1.1 ∉ pa_principio_activo_normalizado <$> pas) ->
  exists db',
    for_count (fun i g => insert_principio_activo g (now i)) n gs db
    = (Ok (n + length gs)%nat, db').
Proof.
  induction gs as [|g gs IH]; intros n db pas Hpas Hnd Hfresh; cbn [for_count length].
  - exists db. unfold ret. do 2 f_equal. lia.
  - rewrite fmap_cons in Hnd. apply NoDup_cons in Hnd as [Hg Hnd].
    destruct (insert_principio_activo g (now n) db) as [r db1] eqn:Hi.
    assert (Hi' := Hi). unfold insert_principio_activo in Hi'. rewrite Hpas in Hi'.
    rewrite bool_decide_eq_false_2 in Hi' by (apply Hfresh; left).
    inversion Hi'; subst r; clear Hi'.
    destruct (IH (S n) db1
                (pas ++ [PrincipioActivo g.1.1.1 g.1.1.2 g.1.2 g.2 (now n)])) as [db' H].
    + subst db1. reflexivity.
    + exact Hnd.
    + intros g' Hg'. rewrite fmap_app. intros [Hin|Hin]%elem_of_app.
      * revert Hin. apply Hfresh. by right.
      * cbn in Hin. apply list_elem_of_singleton in Hin. apply Hg. rewrite <- Hin.
        apply list_elem_of_fmap. by exists g'.
    + exists db'. erewrite bind_eq; [|exact Hi]. rewrite H. do 2 f_equal. lia.
Qed.

(** On a store with the catalogue table and its derived column, the group
    table and the metadata table, [normalize_database] returns: no insert
    meets the UNIQUE constraint, the tokens of the groups being distinct. *)
Lemma normalize_database_returns now db t pas meta :
  medicamentos db = Some t ->
  has_column t col_principio = true ->
  principios_activos db = Some pas ->
  metadatos_sistema db = Some meta ->
  exists st db1, normalize_database now db = (Ok st, db1).
Proof.
  intros Ht Hc Hpas Hmeta.
  destruct (decide (fst <$> meta !! clave_normalizacion = Some (py "true"))) as [Hflag|Hflag].
  { eexists _, _. by eapply normalize_database_flag_set. }
  unfold normalize_database.
  erewrite bind_eq; [|unfold select_valor; rewrite Hmeta; reflexivity].
  rewrite bool_decide_eq_false_2 by done.
  erewrite bind_eq; [|unfold select_medicamentos; rewrite Ht; reflexivity].
  edestruct (for_count_update_returns
               (fun m => normalize_active_ingredient m.1.2 (opt_or_else m.2 []))
               (map (fun m => (clave m, descripcion m, nombre_generico m)) (filas t))
               0%nat db t Ht Hc) as [db2 Hup].
  erewrite bind_eq; [|exact Hup].
  pose proof (for_count_update_Ok _ _ _ _ _ _ _ Hup Ht) as (_ & filas2 & _ & ->).
  erewrite bind_eq;
    [|unfold delete_principios_activos; cbn [principios_activos]; rewrite Hpas; reflexivity].
  erewrite bind_eq;
    [|unfold select_grupos; cbn [medicamentos];
      change (has_column _ col_principio) with (has_column t col_principio);
      rewrite Hc; reflexivity].
  destruct (for_count_insert_returns now
              (order_by_desc (fun g : grupo => g.1.2) (grupo_de filas2 <$> tokens filas2))
              0%nat
              (Database (Some (TablaMedicamentos (columnas t) filas2)) (Some [])
                 (metadatos_sistema db) (indices db))
              [] eq_refl) as [db5 Hins]; [| |].
  - rewrite order_by_desc_Permutation, grupo_de_token. apply NoDup_tokens.
  - intros g _. apply not_elem_of_nil.
  - cbn [filas] in *. erewrite bind_eq; [|exact Hins].
    pose proof (for_count_insert_Ok _ _ _ _ _ _ _ Hins eq_refl) as (_ & ->).
    erewrite bind_eq;
      [|unfold insert_or_replace_metadatos; cbn [metadatos_sistema]; rewrite Hmeta;
        reflexivity].
    by eexists _, _.
Qed.

(** After a setup that succeeded, the pass returns. *)
Lemma normalize_database_after_setup now db u db' :
  setup_optimization_tables db = (Ok u, db') ->
  exists st db1, normalize_database now db' = (Ok st, db1).
Proof.
  intros ((t & Ht & Hc) & [pas Hpas] & [meta Hmeta] & _)%setup_Ok_configurada.
  by eapply normalize_database_returns.
Qed.

End Returns.

(** ** The properties at work on the example stores *)

(** The second call on the normalized example catalogue. *)
Lemma normalize_database_idempotent_example :
  normalize_database Escenario.reloj Escenario.preparado
  = (Ok (Estadisticas 4 3 (py "completada")), Escenario.normalizado Escenario.reloj) /\
  exists t pas,
    medicamentos (Escenario.normalizado Escenario.reloj) = Some t /\
    principios_activos (Escenario.normalizado Escenario.reloj) = Some pas /\
    normalize_database Escenario.reloj (Escenario.normalizado Escenario.reloj) =
      (Ok (Estadisticas
             (Z.of_nat (length (filter (fun m => not_empty (principio_activo_normalizado m) = true)
                                  (filas t))))
             (Z.of_nat (length pas))
             (py "ya_completada")),
       Escenario.normalizado Escenario.reloj).
Proof.
  assert (H : normalize_database Escenario.reloj Escenario.preparado
              = (Ok (Estadisticas 4 3 (py "completada")),
                 Escenario.normalizado Escenario.reloj))
    by (vm_compute; reflexivity).
  split; [exact H|].
  exact (normalize_database_idempotent Escenario.reloj Escenario.reloj _ _ _ H).
Defined.

(** The group table of the normalized example catalogue. *)
Lemma normalize_database_group_table_example :
  normalize_database Escenario.reloj Escenario.preparado
  = (Ok (Estadisticas 4 3 (py "completada")), Escenario.normalizado Escenario.reloj) /\
  exists t1 pas1,
    medicamentos (Escenario.normalizado Escenario.reloj) = Some t1 /\
    principios_activos (Escenario.normalizado Escenario.reloj) = Some pas1 /\
    (forall token,
        token <> [] -> miembros token (filas t1) <> [] ->
        exists pa,
          filter (fun pa => pa_principio_activo_normalizado pa = token) pas1 = [pa] /\
          total_medicamentos pa = Z.of_nat (length (miembros token (filas t1)))) /\
    (forall pa,
        pa ∈ pas1 ->
        pa_principio_activo_normalizado pa <> [] /\
        miembros (pa_principio_activo_normalizado pa) (filas t1) <> []).
Proof.
  assert (H : normalize_database Escenario.reloj Escenario.preparado
              = (Ok (Estadisticas 4 3 (py "completada")),
                 Escenario.normalizado Escenario.reloj))
    by (vm_compute; reflexivity).
  split; [exact H|].
  exact (normalize_database_group_table Escenario.reloj _ _ _ H eq_refl).
Defined.


(** The coverage of the catalogue with two of three records normalized. *)
Lemma coverage_reported_example :
  exists t,
    medicamentos Escenario.parcial = Some t /\
    has_column t col_principio = true /\
    let T := Z.of_nat (length (filas t)) in
    let U := Z.of_nat (length (filter (fun m => Inspector.sin_normalizar m = true) (filas t))) in
    let percent := PrimFloat.mul (PyFloat.truediv (T - U) T) (PyFloat.of_Z 100) in
    Inspector.quality (Inspector.analyze_active_ingredients Escenario.parcial)
    = (if (0 <? T)%Z
       then Some (Inspector.NormalizationQuality T (T - U) U (PyFloat.round percent 2))
       else None) /\
    exists r,
      QuickCheck.quick_status true Escenario.parcial = QuickCheck.Checked r /\
      QuickCheck.normalization_percentage r
      = (if (0 <? T)%Z then PyFloat.round percent 1 else PyFloat.of_Z 0).
Proof.
  eexists. split; [reflexivity|].
  assert (Hc : has_column (TablaMedicamentos Escenario.columnas_catalogo
                 (match medicamentos Escenario.parcial with
                  | Some t => filas t | None => [] end)) col_principio = true)
    by (vm_compute; reflexivity).
  split; [exact Hc|].
  exact (coverage_reported Escenario.parcial _ eq_refl Hc).
Defined.


(** The example catalogue before the setup has no normalization tables. *)
Lemma recommendations_firing_example :
  Inspector.normalization_tables_exist
    (Inspector.check_normalization_status Escenario.catalogo) = false /\
  Inspector.CrearTablas
    ∈ Inspector.r_recommendations (Inspector.get_inspection_report Escenario.catalogo).
Proof.
  assert (H : Inspector.normalization_tables_exist
                (Inspector.check_normalization_status Escenario.catalogo) = false)
    by reflexivity.
  split; [exact H|].
  exact (proj1 (recommendations_firing Escenario.catalogo) H).
Defined.


(** The first example of the catalogue with two of three records normalized. *)
Lemma process_applied_iff_example :
  Escenario.ejemplo_paracetamol
    ∈ Inspector.find_normalization_examples (fun l => l) [] Escenario.parcial /\
  let p := Inspector.normalization_applied Escenario.ejemplo_paracetamol in
  Inspector.original p
  = opt_or_else (Inspector.generic_name Escenario.ejemplo_paracetamol)
      (Inspector.original_description Escenario.ejemplo_paracetamol) /\
  Inspector.normalized p = Inspector.normalized_ingredient Escenario.ejemplo_paracetamol /\
  (Inspector.process_applied p = true <->
   Inspector.original p <> Inspector.normalized p).
Proof.
  assert (H : Escenario.ejemplo_paracetamol
                ∈ Inspector.find_normalization_examples (fun l => l) [] Escenario.parcial)
    by (vm_compute; left).
  split; [exact H|].
  exact (process_applied_iff _ _ _ _ H).
Defined.

(** The entry of the search for "paracetamol" on the normalized example. *)
Lemma find_similar_medications_fields_example :
  normalize_database Escenario.reloj Escenario.preparado
  = (Ok (Estadisticas 4 3 (py "completada")), Escenario.normalizado Escenario.reloj) /\
  find_similar_medications (py "paracetamol") (Escenario.normalizado Escenario.reloj)
  = (Ok [Escenario.entrada_paracetamol], Escenario.normalizado Escenario.reloj) /\
  exists t1,
    medicamentos (Escenario.normalizado Escenario.reloj) = Some t1 /\
    let e := Escenario.entrada_paracetamol in
    let ms := miembros (s_principio_activo e) (filas t1) in
    let grupos := join (py ",") (grupo_terapeutico <$> ms) in
    s_total_medicamentos e = Z.of_nat (length ms) /\
    (Forall (fun m => contains (py "|") (clave m) = false) ms ->
     clave <$> ms <> [[]] ->
     s_claves e = clave <$> ms /\
     Z.of_nat (length (s_claves e)) = s_total_medicamentos e) /\
    ((1 < length ms)%nat ->
     Forall (fun m => contains (py " | ") (descripcion m) = false) ms ->
     length (s_descripciones e) = 1%nat) /\
    (grupos <> [] -> contains (py ", ") grupos = false ->
     length (s_grupos_terapeuticos e) = 1%nat) /\
    (grupos = [] -> s_grupos_terapeuticos e = []).
Proof.
  assert (H1 : normalize_database Escenario.reloj Escenario.preparado
               = (Ok (Estadisticas 4 3 (py "completada")),
                  Escenario.normalizado Escenario.reloj))
    by (vm_compute; reflexivity).
  assert (H2 : find_similar_medications (py "paracetamol")
                 (Escenario.normalizado Escenario.reloj)
               = (Ok [Escenario.entrada_paracetamol],
                  Escenario.normalizado Escenario.reloj))
    by (vm_compute; reflexivity).
  assert (He : Escenario.entrada_paracetamol ∈ [Escenario.entrada_paracetamol])
    by left.
  split; [exact H1|]. split; [exact H2|].
  exact (find_similar_medications_fields _ _ _ _ _ _ _ _ H1 eq_refl H2 He).
Defined.

(** * Further properties of the engine *)

(** ** The rows and the statistics of a pass *)

Import Pasada.

Section Rows.

Local Open Scope cursor_scope.

Lemma for_count_update_filas (f : str * str * option str -> str) l : forall n db n' db' t,
  for_count (fun _ m => update_principio (f m) m.1.1) n l db = (Ok n', db') ->
  medicamentos db = Some t ->
  db' = Database (Some (TablaMedicamentos (columnas t) (actualizar f l (filas t))))
          (principios_activos db) (metadatos_sistema db) (indices db).
Proof.
  induction l as [|m l IH]; simpl; intros n db n' db' t H Ht.
  - inversion H; subst. rewrite (database_eta db') at 1. rewrite Ht. by destruct t.
  - apply bind_Ok in H as (u & dbm & Hu & H).
    unfold update_principio in Hu. rewrite Ht in Hu.
    destruct (has_column t col_principio); [|discriminate].
    inversion Hu; subst dbm; clear Hu.
    eapply IH in H; [|reflexivity]. simpl in H. exact H.
Qed.

Lemma actualizar_cons f m l rows :
  actualizar f (m :: l) rows
  = actualizar f l
      (map (fun r => if bool_decide (clave r = m.1.1)
                     then con_principio r (f m) else r) rows).
Proof. reflexivity. Qed.

Lemma actualizar_datos f l : forall rows,
  datos <$> actualizar f l rows = datos <$> rows.
Proof.
  induction l as [|m l IH]; intros rows; [done|].
  rewrite actualizar_cons, IH. rewrite <- list_fmap_compose.
  apply list_fmap_ext. intros i r _. simpl. by case_bool_decide.
Qed.

Lemma actualizar_find f l : forall rows,
  NoDup ((fun m : str * str * option str => m.1.1) <$> l) ->
  actualizar f l rows
  = map (fun r => match list_find (fun m : str * str * option str => clave r = m.1.1) l with
                  | Some (_, m) => con_principio r (f m)
                  | None => r
                  end) rows.
Proof.
  induction l as [|m l IH]; intros rows Hnd.
  - simpl. by rewrite map_id.
  - rewrite fmap_cons in Hnd. apply NoDup_cons in Hnd as [Hm Hnd].
    rewrite actualizar_cons, IH by done. rewrite map_map.
    apply map_ext. intros r. cbn [list_find].
    case_bool_decide as Hk; destruct (decide (clave r = m.1.1)) as [Hk'|Hk']; try done.
    + destruct (list_find _ l) as [[i m']|] eqn:E; [|done].
      apply list_find_Some in E as (Hi & Hk'' & _). simpl in Hk''. exfalso. apply Hm.
      apply list_elem_of_fmap. exists m'. split; [congruence|].
      by eapply list_elem_of_lookup_2.
    + destruct (list_find _ l) as [[i m']|]; done.
Qed.

(** With distinct keys, the updates of the fetched rows canonicalize every
    row of the table. *)
Lemma actualizar_canonico rows :
  NoDup (clave <$> rows) ->
  actualizar (fun m => normalize_active_ingredient m.1.2 (opt_or_else m.2 []))
    (map (fun m => (clave m, descripcion m, nombre_generico m)) rows) rows
  = canonico <$> rows.
Proof.
  intros Hnd. rewrite actualizar_find.
  2:{ rewrite <- list_fmap_compose. exact Hnd. }
  apply list_fmap_ext. intros i r Hr.
  destruct (list_find _ _) as [[j m]|] eqn:E.
  - apply list_find_Some in E as (Hj & Hk & _).
    apply list_lookup_fmap_Some in Hj as (r' & -> & Hj). simpl in *.
    assert (r' = r) as ->; [|done].
    assert (j = i) as ->; [|congruence].
    eapply NoDup_lookup; [exact Hnd| |]; rewrite list_lookup_fmap.
    + by rewrite Hj.
    + rewrite Hr. simpl. by rewrite Hk.
  - apply list_find_None in E. rewrite Forall_forall in E.
    exfalso. apply (E (clave r, descripcion r, nombre_generico r)); [|done].
    apply list_elem_of_fmap. exists r. split; [done|]. by eapply list_elem_of_lookup_2.
Qed.

End Rows.

Section PassRows.

Local Open Scope cursor_scope.

(** A pass that ran to completion, with the rows that it wrote. *)
Lemma normalize_database_pass now db st db1 t :
  normalize_database now db = (Ok st, db1) ->
  estado st = py "completada" ->
  medicamentos db = Some t ->
  let filas1 :=
    actualizar (fun m => normalize_active_ingredient m.1.2 (opt_or_else m.2 []))
      (map (fun m => (clave m, descripcion m, nombre_generico m)) (filas t))
      (filas t) in
  let gs := order_by_desc (fun g : grupo => g.1.2)
              (grupo_de filas1 <$> tokens filas1) in
  exists meta,
    metadatos_sistema db = Some meta /\
    st = Estadisticas (Z.of_nat (length (filas t))) (Z.of_nat (length gs))
           (py "completada") /\
    db1 = Database (Some (TablaMedicamentos (columnas t) filas1))
            (Some (filas_pa now 0 gs))
            (Some (<[clave_normalizacion := (py "true", now (length gs))]> meta))
            (indices db).
Proof.
  unfold normalize_database. intros H Hest Ht.
  apply bind_Ok in H as (resultado & db0 & Hsel & H).
  apply select_valor_Ok in Hsel as (-> & meta & Hmeta & ->).
  case_bool_decide as Hflag.
  { unfold _get_normalization_stats in H.
    apply bind_Ok in H as (n1 & db' & H1 & H).
    apply bind_Ok in H as (n2 & db'' & H2 & H).
    inversion H; subst. discriminate. }
  apply bind_Ok in H as (meds & db' & Hm & H).
  apply select_medicamentos_Ok in Hm as (-> & t' & Ht' & ->).
  rewrite Ht in Ht'. inversion Ht'; subst t'; clear Ht'.
  apply bind_Ok in H as (n & db2 & Hup & H).
  pose proof (for_count_update_Ok _ _ _ _ _ _ _ Hup Ht) as (-> & _).
  pose proof (for_count_update_filas _ _ _ _ _ _ _ Hup Ht) as ->.
  clear Hup.
  apply bind_Ok in H as (u & db3 & Hdel & H).
  apply delete_principios_activos_Ok in Hdel as (_ & ->).
  apply bind_Ok in H as (gs & db4 & Hgs & H).
  apply select_grupos_Ok in Hgs as (-> & t1 & Ht1 & Hc1 & ->).
  simpl in Ht1. inversion Ht1; subst t1; clear Ht1.
  apply bind_Ok in H as (k & db5 & Hins & H).
  pose proof (for_count_insert_Ok _ _ _ _ _ _ _ Hins eq_refl) as (-> & ->).
  clear Hins.
  apply bind_Ok in H as (u' & db6 & Hmark & H).
  apply insert_or_replace_metadatos_Ok in Hmark as (meta' & Hmeta' & ->).
  simpl in Hmeta'. rewrite Hmeta in Hmeta'. inversion Hmeta'; subst meta'.
  inversion H; subst; clear H. simpl.
  exists meta. rewrite length_map. by repeat split.
Qed.

End PassRows.

(** X2. What a completed pass writes in the catalogue: it keeps the columns,
    the indexes, the number and order of the rows and, in every row, the key,
    the description, the generic name and the therapeutic group; and when the
    keys are distinct, as the primary key of the table makes them, every row
    carries the canonical form of its own generic name, or of its description
    when it has no generic name. *)
Theorem normalize_database_rows now db st db1 t :
  normalize_database now db = (Ok st, db1) ->
  estado st = py "completada" ->
  medicamentos db = Some t ->
  exists t1,
    medicamentos db1 = Some t1 /\
    columnas t1 = columnas t /\
    indices db1 = indices db /\
    Pasada.datos <$> filas t1 = Pasada.datos <$> filas t /\
    (NoDup (clave <$> filas t) -> filas t1 = Pasada.canonico <$> filas t).
Proof.
  intros H Hest Ht.
  destruct (normalize_database_pass _ _ _ _ _ H Hest Ht) as (meta & _ & _ & ->).
  eexists. split; [reflexivity|]. simpl. split; [done|]. split; [done|].
  split; [apply actualizar_datos|]. apply actualizar_canonico.
Qed.

Section Counts.

Lemma suma_totales_filas_pa now gs : forall n,
  suma_totales (filas_pa now n gs) = foldr (fun (g : grupo) s => (g.1.2 + s)%Z) 0%Z gs.
Proof. induction gs as [|g gs IH]; intros n; simpl; [done|]. by rewrite IH. Qed.

Lemma suma_grupos_Permutation (gs gs' : list grupo) :
  gs ≡ₚ gs' ->
  foldr (fun (g : grupo) s => (g.1.2 + s)%Z) 0%Z gs
  = foldr (fun (g : grupo) s => (g.1.2 + s)%Z) 0%Z gs'.
Proof.
  intros Hp. apply (foldr_permutation_proper eq); [solve_proper| |done].
  intros; lia.
Qed.

Lemma suma_grupo_de l ks :
  foldr (fun (g : grupo) s => (g.1.2 + s)%Z) 0%Z (grupo_de l <$> ks)
  = Z.of_nat (sum_list_with (fun k => length (miembros k l)) ks).
Proof. induction ks as [|k ks IH]; csimpl; [done|]. rewrite IH. lia. Qed.

Lemma sum_list_with_add {A} (f g : A -> nat) l :
  sum_list_with (fun x => f x + g x)%nat l
  = (sum_list_with f l + sum_list_with g l)%nat.
Proof. induction l as [|x l IH]; simpl; [done|]. rewrite IH. lia. Qed.

Lemma sum_list_with_ext_in {A} (f g : A -> nat) l :
  (forall x, x ∈ l -> f x = g x) -> sum_list_with f l = sum_list_with g l.
Proof.
  induction l as [|x l IH]; intros H; simpl; [done|].
  rewrite (H x) by left. rewrite IH; [done|]. intros y Hy. apply H. by right.
Qed.

Lemma sum_list_with_indicator (x : option str) ks :
  NoDup ks ->
  sum_list_with (fun k => if decide (x = Some k) then 1 else 0)%nat ks
  = if decide (x ∈ Some <$> ks) then 1%nat else 0%nat.
Proof.
  induction ks as [|k ks IH]; intros Hnd.
  - case_decide as H; [|done]. by apply elem_of_nil in H.
  - apply NoDup_cons in Hnd as [Hk Hnd]. cbn [sum_list_with]. rewrite IH by done.
    rewrite fmap_cons.
    destruct (decide (x = Some k)) as [->|Hx].
    + destruct (decide (Some k ∈ Some <$> ks)) as [Hin|Hin].
      { apply list_elem_of_fmap in Hin as (k' & [= <-] & Hk'). done. }
      destruct (decide (Some k ∈ Some k :: (Some <$> ks))) as [|Hn]; [done|].
      exfalso. apply Hn. left.
    + destruct (decide (x ∈ Some <$> ks)) as [Hin|Hin];
        destruct (decide (x ∈ Some k :: (Some <$> ks))) as [Hin'|Hin']; try done.
      * exfalso. apply Hin'. by right.
      * exfalso. apply elem_of_cons in Hin' as [?|?]; done.
Qed.

(** The sizes of the groups of distinct tokens add up to the number of rows
    that carry one of them. *)
Lemma sum_miembros ks : forall l,
  NoDup ks -> [] ∉ ks ->
  (forall m, m ∈ l -> not_empty (principio_activo_normalizado m) = true ->
             principio_activo_normalizado m ∈ Some <$> ks) ->
  sum_list_with (fun k => length (miembros k l)) ks
  = length (filter (fun m => not_empty (principio_activo_normalizado m) = true) l).
Proof.
  intros l Hnd Hne. induction l as [|m l IH]; intros Hcov.
  - clear. induction ks as [|k ks IHk]; simpl; [done|]. exact IHk.
  - rewrite (sum_list_with_ext_in _
      (fun k => (if decide (principio_activo_normalizado m = Some k) then 1 else 0)
                + length (miembros k l))%nat).
    2:{ intros k _. unfold miembros. rewrite filter_cons. by destruct (decide _). }
    rewrite sum_list_with_add, sum_list_with_indicator by done.
    rewrite IH.
    2:{ intros m' Hm'. apply Hcov. by right. }
    rewrite filter_cons.
    destruct (decide (not_empty (principio_activo_normalizado m) = true)) as [Hm|Hm];
      destruct (decide (principio_activo_normalizado m ∈ Some <$> ks)) as [Hin|Hin];
      try done.
    + exfalso. apply Hin. apply Hcov; [left|done].
    + exfalso. apply list_elem_of_fmap in Hin as (k & Hk & Hin). apply Hm. rewrite Hk.
      apply not_empty_Some. intros ->. done.
Qed.

Lemma sum_miembros_tokens l :
  sum_list_with (fun k => length (miembros k l)) (tokens l)
  = length (filter (fun m => not_empty (principio_activo_normalizado m) = true) l).
Proof.
  apply sum_miembros.
  - apply NoDup_tokens.
  - intros [H _]%elem_of_tokens. done.
  - intros m Hm Hne.
    destruct (principio_activo_normalizado m) as [k|] eqn:E; [|done].
    apply list_elem_of_fmap. exists k. split; [done|].
    apply elem_of_tokens. split; [by apply not_empty_Some|].
    apply miembros_nonempty. eauto.
Qed.

Lemma suma_totales_grupos now l :
  suma_totales
    (filas_pa now 0 (order_by_desc (fun g : grupo => g.1.2) (grupo_de l <$> tokens l)))
  = Z.of_nat (length (filter (fun m => not_empty (principio_activo_normalizado m) = true) l)).
Proof.
  rewrite suma_totales_filas_pa.
  rewrite (suma_grupos_Permutation _ _ (order_by_desc_Permutation _ _)).
  by rewrite suma_grupo_de, sum_miembros_tokens.
Qed.

Lemma length_filas_pa now gs : forall n, length (filas_pa now n gs) = length gs.
Proof. induction gs as [|g gs IH]; intros n; simpl; [done|]. by rewrite IH. Qed.

End Counts.

(** X3. The statistics of a completed pass: [medicamentos_actualizados] is
    the number of rows of the catalogue, whether their canonical ingredient
    came out empty or not; [principios_activos_encontrados] is the number of
    rows of the group table, one for each distinct non-empty canonical
    ingredient; and the counts of the group rows add up to the number of
    catalogue rows with a non-empty canonical ingredient, which is at most
    the number of updated rows. *)
Theorem normalize_database_statistics now db st db1 :
  normalize_database now db = (Ok st, db1) ->
  estado st = py "completada" ->
  exists t1 pas1,
    medicamentos db1 = Some t1 /\ principios_activos db1 = Some pas1 /\
    medicamentos_actualizados st = Z.of_nat (length (filas t1)) /\
    principios_activos_encontrados st = Z.of_nat (length pas1) /\
    length pas1 = length (tokens (filas t1)) /\
    Pasada.suma_totales pas1
    = Z.of_nat (length (filter (fun m => not_empty (principio_activo_normalizado m) = true)
                          (filas t1))) /\
    (Pasada.suma_totales pas1 <= medicamentos_actualizados st)%Z.
Proof.
  intros H Hest. apply normalize_database_Ok in H as [H|H].
  { destruct H as (t & pas & meta & _ & _ & _ & _ & _ & -> & _). discriminate. }
  destruct H as (t & t1 & pas0 & meta & _ & _ & _ & _ & _ & _ & Hlen & -> & ->).
  pose proof (suma_totales_grupos now (filas t1)) as Hsum.
  pose proof (length_filas_pa now) as Hpas.
  eexists t1, _. split; [done|]. split; [done|]. simpl.
  split; [by rewrite Hlen|]. split; [by rewrite Hpas|].
  split.
  { rewrite Hpas. rewrite (Permutation_length (order_by_desc_Permutation _ _)).
    apply length_fmap. }
  split; [exact Hsum|]. rewrite Hsum, <- Hlen.
  apply inj_le, length_filter.
Qed.

(** ** When the pass returns *)

Section Failures.

Local Open Scope cursor_scope.


Lemma has_column_columnas t t' c :
  columnas t' = columnas t -> has_column t' c = has_column t c.
Proof. unfold has_column. by intros ->. Qed.

(** The pass returns only on a store that has the catalogue table with its
    derived column, the group table and the metadata table. *)
Lemma normalize_database_Ok_schema now db st db1 :
  normalize_database now db = (Ok st, db1) ->
  (exists t, medicamentos db = Some t /\ has_column t col_principio = true) /\
  is_Some (principios_activos db) /\ is_Some (metadatos_sistema db).
Proof.
  intros [H|H]%normalize_database_Ok.
  - destruct H as (t & pas & meta & Ht & Hc & Hpas & Hmeta & _). eauto 10.
  - destruct H as (t & t1 & pas0 & meta & Ht & Hpas & Hmeta & _ & Hc & Hcols & _).
    rewrite (has_column_columnas _ _ _ Hcols) in Hc. eauto 10.
Qed.


End Failures.


(** ** What the setup keeps *)

Section SetupData.

Local Open Scope cursor_scope.

Lemma create_index_keeps name cols db :
  let db' := (create_index name cols db).2 in
  medicamentos db' = medicamentos db /\
  principios_activos db' = principios_activos db /\
  metadatos_sistema db' = metadatos_sistema db /\
  indices db ⊆ indices db'.
Proof.
  unfold create_index. destruct (medicamentos db) as [t|] eqn:Ht; [|done].
  destruct (indices db !! name) eqn:Hn; [done|].
  destruct (filter _ cols); [|done]. simpl. repeat split.
  by apply insert_subseteq.
Qed.

Lemma for_each_index_keeps l : forall db,
  let db' := (for_each (fun indice : str * list str => create_index indice.1 indice.2) l db).2 in
  medicamentos db' = medicamentos db /\
  principios_activos db' = principios_activos db /\
  metadatos_sistema db' = metadatos_sistema db /\
  indices db ⊆ indices db'.
Proof.
  induction l as [|i l IH]; intros db; [done|].
  cbn [for_each]. unfold bind.
  pose proof (create_index_keeps i.1 i.2 db) as (H1 & H2 & H3 & H4).
  destruct (create_index i.1 i.2 db) as [[u|e] db1]; simpl in *; [|done].
  destruct (IH db1) as (H1' & H2' & H3' & H4').
  repeat split; try congruence. by etrans.
Qed.

Lemma tras_alter_keeps db :
  principios_activos (tras_alter db) = principios_activos db /\
  metadatos_sistema (tras_alter db) = metadatos_sistema db /\
  indices (tras_alter db) = indices db /\
  match medicamentos db with
  | Some t =>
      exists t', medicamentos (tras_alter db) = Some t' /\
                 datos <$> filas t' = datos <$> filas t /\
                 (has_column t col_principio = true -> t' = t)
  | None => medicamentos (tras_alter db) = None
  end.
Proof.
  unfold tras_alter. destruct (medicamentos db) as [t|] eqn:Ht; [|by rewrite Ht].
  destruct (has_column t col_principio) eqn:Hc.
  - rewrite Ht. repeat split; try done. by exists t.
  - unfold alter_table_add_column_principio. rewrite Ht, Hc. simpl.
    repeat split; try done. eexists. split; [done|]. split; [|done]. simpl.
    rewrite <- list_fmap_compose. by apply list_fmap_ext.
Qed.

End SetupData.

(** X6. The schema setup adds and never removes. Whether
    [setup_optimization_tables] returns or raises, the group table and the
    metadata table exist afterwards with the rows that they had, every index
    that existed is kept with its columns, and the catalogue keeps its rows
    with their key, description, generic name and therapeutic group; a
    catalogue that already has the derived column is left as it was. *)
Theorem setup_optimization_tables_keeps_data db :
  let db' := (setup_optimization_tables db).2 in
  principios_activos db' = Some (default [] (principios_activos db)) /\
  metadatos_sistema db' = Some (default ∅ (metadatos_sistema db)) /\
  indices db ⊆ indices db' /\
  match medicamentos db with
  | Some t =>
      exists t', medicamentos db' = Some t' /\
                 Pasada.datos <$> filas t' = Pasada.datos <$> filas t /\
                 (has_column t col_principio = true -> t' = t)
  | None => medicamentos db' = None
  end.
Proof.
  intros db'. subst db'. rewrite setup_unfold.
  destruct (for_each_index_keeps indices_optimizados (tras_tablas (tras_alter db)))
    as (H1 & H2 & H3 & H4).
  destruct (tras_alter_keeps db) as (A2 & A3 & A4 & A1).
  rewrite H1, H2, H3. simpl in *. rewrite A2, A3. rewrite A4 in H4.
  repeat split; done.
Qed.


(** ** What the search finds *)

Import Busqueda.

Section SearchResult.

Local Open Scope cursor_scope.

#[local] Instance total_desc_trans {A} (total : A -> Z) :
  Transitive (fun a b => (total b <= total a)%Z).
Proof. intros a b c ??. lia. Qed.

#[local] Instance total_desc_total {A} (total : A -> Z) :
  Total (fun a b => (total b <= total a)%Z).
Proof. intros a b. lia. Qed.

Lemma order_by_desc_StronglySorted {A} (total : A -> Z) (l : list A) :
  StronglySorted (fun a b => (total b <= total a)%Z) (order_by_desc total l).
Proof. unfold order_by_desc. apply StronglySorted_merge_sort; apply _. Qed.

(** What the search returns on a store with the group table and a
    catalogue with the derived column: the entries of the selected group
    rows, by descending stored count, the store being left as it was. *)
Lemma find_similar_medications_result search_term db t pas :
  medicamentos db = Some t -> has_column t col_principio = true ->
  principios_activos db = Some pas ->
  exists res,
    find_similar_medications search_term db = (Ok res, db) /\
    res ≡ₚ entrada (filas t)
           <$> encontrados (py "%" ++ normalize_active_ingredient [] search_term ++ py "%")
                 (filas t) pas /\
    StronglySorted (fun a b => (s_total_medicamentos b <= s_total_medicamentos a)%Z) res.
Proof.
  intros Ht Hc Hpas. unfold find_similar_medications.
  eexists. split; [|split].
  - erewrite bind_eq; [reflexivity|].
    unfold select_similares. rewrite Hpas, Ht, Hc. reflexivity.
  - change (map ?f ?l) with (f <$> l). rewrite order_by_desc_Permutation.
    rewrite <- list_fmap_compose. reflexivity.
  - change (map ?f ?l) with (f <$> l).
    eapply StronglySorted_fmap; [|apply order_by_desc_StronglySorted].
    intros x y Hxy. exact Hxy.
Qed.

Lemma like_percent_cons pat c x :
  like (37 :: pat) (c :: x) = like pat (c :: x) || like (37 :: pat) x.
Proof. reflexivity. Qed.

Lemma like_percent_nil pat : like (37 :: pat) [] = like pat [].
Proof. simpl. by rewrite orb_false_r. Qed.

Lemma like_percent_app pat a : forall y,
  like pat y = true -> like (37 :: pat) (a ++ y) = true.
Proof.
  induction a as [|c a IH]; intros y Hy.
  - rewrite app_nil_l. destruct y as [|c y]; [by rewrite like_percent_nil|].
    by rewrite like_percent_cons, Hy.
  - rewrite <- app_comm_cons, like_percent_cons, IH by done. apply orb_true_r.
Qed.

Lemma like_percent_all x : like [37] x = true.
Proof.
  induction x as [|c x IH]; [done|]. by rewrite like_percent_cons, IH, orb_true_r.
Qed.

(** A text matches itself followed by anything, whatever wild cards it
    holds. *)
Lemma like_prefix q : forall b, like (q ++ [37]) (q ++ b) = true.
Proof.
  induction q as [|p q IH]; intros b; [apply like_percent_all|].
  rewrite <- !app_comm_cons. destruct (p =? 37) eqn:Hp.
  - apply N.eqb_eq in Hp as ->. rewrite like_percent_cons.
    change (like (37 :: q ++ [37]) (q ++ b)) with (like (37 :: (q ++ [37])) ([] ++ (q ++ b))).
    rewrite like_percent_app by apply IH. apply orb_true_r.
  - cbn [like]. rewrite Hp, N.eqb_refl, orb_true_r. apply IH.
Qed.

Lemma like_contains q a b : like (py "%" ++ q ++ py "%") (a ++ q ++ b) = true.
Proof. apply like_percent_app, like_prefix. Qed.

(** The query selects the group rows whose token holds the term and that
    have members. *)
Lemma elem_of_encontrados q a b l pas pa :
  pa ∈ pas ->
  miembros (pa_principio_activo_normalizado pa) l <> [] ->
  pa_principio_activo_normalizado pa = a ++ q ++ b ->
  pa ∈ encontrados (py "%" ++ q ++ py "%") l pas.
Proof.
  intros Hpa Hms Htok. apply list_elem_of_filter. split; [|done]. split; [|done].
  rewrite Htok. apply like_contains.
Qed.

End SearchResult.

(** X7. The search is complete for substrings: on a store with the group
    table and a catalogue with the derived column, every group row whose
    token contains the canonical form of the search term, and which has
    members in the catalogue, has its entry in the result; the store is
    left as it was. *)
Theorem find_similar_medications_complete search_term db t pas pa a b :
  medicamentos db = Some t ->
  has_column t col_principio = true ->
  principios_activos db = Some pas ->
  pa ∈ pas ->
  miembros (pa_principio_activo_normalizado pa) (filas t) <> [] ->
  pa_principio_activo_normalizado pa
  = a ++ normalize_active_ingredient [] search_term ++ b ->
  exists res,
    find_similar_medications search_term db = (Ok res, db) /\
    Busqueda.entrada (filas t) pa ∈ res.
Proof.
  intros Ht Hc Hpas Hpa Hms Htok.
  destruct (find_similar_medications_result search_term db t pas Ht Hc Hpas)
    as (res & Hres & Hperm & _).
  exists res. split; [done|]. rewrite Hperm.
  apply list_elem_of_fmap. exists pa. split; [done|].
  by eapply elem_of_encontrados.
Qed.

Section SearchOrder.

Lemma find_similar_medications_Ok_schema search_term db res db' :
  find_similar_medications search_term db = (Ok res, db') ->
  exists t pas,
    medicamentos db = Some t /\ has_column t col_principio = true /\
    principios_activos db = Some pas.
Proof.
  unfold find_similar_medications. intros H.
  apply bind_Ok in H as (rows & db0 & Hsel & H).
  unfold select_similares in Hsel.
  destruct (principios_activos db) as [pas|] eqn:Hpas; [|discriminate].
  destruct (medicamentos db) as [t|] eqn:Ht; [|discriminate].
  destruct (has_column t col_principio) eqn:Hc; [|discriminate].
  eauto.
Qed.

End SearchOrder.

(** X8. The result of a search is ranked and the search writes nothing:
    whenever [find_similar_medications] returns, the store is the one it was
    given, and the entries come by descending stored count of their group,
    every entry having at least the count of all that follow it. *)
Theorem find_similar_medications_ranked search_term db res db' :
  find_similar_medications search_term db = (Ok res, db') ->
  db' = db /\
  StronglySorted
    (fun a b => (s_total_medicamentos b <= s_total_medicamentos a)%Z) res.
Proof.
  intros H.
  destruct (find_similar_medications_Ok_schema _ _ _ _ H) as (t & pas & Ht & Hc & Hpas).
  destruct (find_similar_medications_result search_term db t pas Ht Hc Hpas)
    as (res' & Hres & _ & Hsorted).
  rewrite Hres in H. inversion H; subst. done.
Qed.

(** X9. A term whose canonical form is empty matches every group: the empty
    term, or one made only of words and quantities that the canonicalizer
    strips, returns an entry for each group row that has members in the
    catalogue. *)
Theorem find_similar_medications_empty_term search_term db t pas :
  medicamentos db = Some t ->
  has_column t col_principio = true ->
  principios_activos db = Some pas ->
  normalize_active_ingredient [] search_term = [] ->
  exists res,
    find_similar_medications search_term db = (Ok res, db) /\
    res ≡ₚ Busqueda.entrada (filas t)
           <$> filter (fun pa => miembros (pa_principio_activo_normalizado pa) (filas t) <> [])
                 pas.
Proof.
  intros Ht Hc Hpas Hterm.
  destruct (find_similar_medications_result search_term db t pas Ht Hc Hpas)
    as (res & Hres & Hperm & _).
  exists res. split; [done|]. rewrite Hperm, Hterm. unfold encontrados.
  erewrite list_filter_iff; [reflexivity|].
  intros pa. split; [by intros [_ ?]|]. intros Hms. split; [|done].
  pose proof (like_contains [] (pa_principio_activo_normalizado pa) []) as Hl.
  by rewrite !app_nil_r in Hl.
Qed.

Section OwnName.

Lemma or_else_nil_r s : or_else s [] = s.
Proof. by destruct s. Qed.

(** The search canonicalizes the source text of a record to the token that
    the pass gives to the record. *)
Lemma normalize_texto_base m :
  normalize_active_ingredient [] (texto_base m)
  = normalize_active_ingredient (descripcion m) (opt_or_else (nombre_generico m) []).
Proof.
  unfold normalize_active_ingredient, texto_base. by rewrite or_else_nil_r.
Qed.

Lemma elem_of_filas_pa_token now l token :
  token ∈ tokens l ->
  exists pa,
    pa ∈ filas_pa now 0 (order_by_desc (fun g : grupo => g.1.2) (grupo_de l <$> tokens l)) /\
    pa_principio_activo_normalizado pa = token /\
    total_medicamentos pa = Z.of_nat (length (miembros token l)).
Proof.
  intros Htok. rewrite <- (filas_pa_keys now) in Htok.
  apply list_elem_of_fmap in Htok as (pa & -> & Hpa). exists pa.
  split; [done|]. split; [done|].
  by apply elem_of_filas_pa_grupos in Hpa as (token & fecha & _ & ->).
Qed.

Lemma claves_split ms :
  ms <> [] ->
  Forall (fun m : medicamento => clave m <> [] /\ contains (py "|") (clave m) = false) ms ->
  split_if (py "|") (group_concat (py "|") (clave <$> ms)) = clave <$> ms.
Proof.
  intros Hne Hall. rewrite group_concat_Some by (by destruct ms).
  change (py "|") with [124%N] in *. unfold split_if.
  rewrite truthy_join.
  - apply split_join; [by destruct ms|].
    apply Forall_fmap. eapply Forall_impl; [exact Hall|]. by intros m [_ ?].
  - by destruct ms.
  - destruct ms as [|m ms]; [done|]. apply Forall_cons in Hall as [[Hm _] _].
    intros [= Hk _]. done.
Qed.

End OwnName.

(** X10. A record is found under its own name. After a completed pass on a
    catalogue with distinct keys, the search for the source text of a record
    (its generic name, or its description when it has none) whose canonical
    form is not empty returns an entry for the group of that canonical form,
    with a count of at least one; and when no key of the catalogue is empty
    or holds the separator [|], the key of the record is among the keys of
    the entry. *)
Theorem find_similar_medications_own_name now db st db1 t m :
  normalize_database now db = (Ok st, db1) ->
  estado st = py "completada" ->
  medicamentos db = Some t ->
  NoDup (clave <$> filas t) ->
  m ∈ filas t ->
  normalize_active_ingredient [] (Busqueda.texto_base m) <> [] ->
  exists res e,
    find_similar_medications (Busqueda.texto_base m) db1 = (Ok res, db1) /\
    e ∈ res /\
    s_principio_activo e = normalize_active_ingredient [] (Busqueda.texto_base m) /\
    (1 <= s_total_medicamentos e)%Z /\
    (Forall (fun m' => clave m' <> [] /\ contains (py "|") (clave m') = false) (filas t) ->
     clave m ∈ s_claves e).
Proof.
  intros H Hest Ht Hnd Hm Hne.
  destruct (normalize_database_pass _ _ _ _ _ H Hest Ht) as (meta & _ & _ & Hdb1).
  rewrite actualizar_canonico in Hdb1 by done.
  set (token := normalize_active_ingredient [] (texto_base m)) in *.
  set (filas1 := canonico <$> filas t) in *.
  assert (Hcm : canonico m ∈ miembros token filas1).
  { apply elem_of_miembros. split.
    - apply list_elem_of_fmap. by exists m.
    - unfold canonico, token. simpl. by rewrite normalize_texto_base. }
  assert (Hms : miembros token filas1 <> []).
  { intros E. rewrite E in Hcm. by apply elem_of_nil in Hcm. }
  assert (Htok : token ∈ tokens filas1) by by apply elem_of_tokens.
  destruct (elem_of_filas_pa_token now filas1 token Htok) as (pa & Hpa & Hkey & Htotal).
  assert (Hc : has_column t col_principio = true).
  { pose proof (normalize_database_Ok_schema _ _ _ _ H) as ((t' & Ht' & Hc) & _).
    rewrite Ht in Ht'. by inversion Ht'; subst t'. }
  destruct (find_similar_medications_result (texto_base m) db1
              (TablaMedicamentos (columnas t) filas1)
              (filas_pa now 0
                 (order_by_desc (fun g : grupo => g.1.2)
                    (grupo_de filas1 <$> tokens filas1))))
    as (res & Hres & Hperm & _).
  { by rewrite Hdb1. }
  { exact Hc. }
  { by rewrite Hdb1. }
  assert (He : entrada filas1 pa ∈ res).
  { rewrite Hperm. apply list_elem_of_fmap. exists pa. split; [done|].
    apply (elem_of_encontrados _ [] []); [exact Hpa|by rewrite Hkey|].
    rewrite Hkey, app_nil_r, app_nil_l. reflexivity. }
  exists res, (entrada filas1 pa). split; [exact Hres|]. split; [exact He|].
    unfold entrada. cbn [s_principio_activo s_total_medicamentos s_claves].
    rewrite Hkey, Htotal. split; [done|]. split.
    + destruct (miembros token filas1); [done|]. simpl. lia.
    + intros Hkeys. rewrite claves_split; [| done |].
      * apply list_elem_of_fmap. by exists (canonico m).
      * apply Forall_forall. intros m' [Hm' _]%elem_of_miembros.
        apply list_elem_of_fmap in Hm' as (m0 & -> & Hm0).
        rewrite Forall_forall in Hkeys. exact (Hkeys m0 Hm0).
Qed.

(** ** The status reports after the optimization *)

Section Lifecycle.

Local Open Scope cursor_scope.

Import OptimizationStatus.

Lemma get_optimization_status_eq db pas meta :
  principios_activos db = Some pas ->
  metadatos_sistema db = Some meta ->
  is_Some (indices db !! py "idx_principio_activo") ->
  get_optimization_status db
  = (Ok (OptimizationStatus true
           (match fst <$> meta !! clave_normalizacion with
            | Some valor => Some (PyStr.eqb valor (py "true"))
            | None => None
            end)
           true
           (truthy_opt
              (match fst <$> meta !! clave_normalizacion with
               | Some valor => Some (PyStr.eqb valor (py "true"))
               | None => None
               end))), db).
Proof.
  intros Hpas Hmeta Hidx. unfold get_optimization_status.
  unfold bind at 1. rewrite Hpas. rewrite bool_decide_eq_true_2 by eauto.
  unfold bind at 1. unfold try_except_OperationalError, bind, select_valor, ret.
  rewrite Hmeta. rewrite bool_decide_eq_true_2 by done.
  by rewrite andb_true_r.
Qed.

(** A pass that returned leaves the completion flag set and the indexes as
    they were. *)
Lemma normalize_database_Ok_flag now db st db1 :
  normalize_database now db = (Ok st, db1) ->
  indices db1 = indices db /\
  is_Some (principios_activos db1) /\
  exists meta1,
    metadatos_sistema db1 = Some meta1 /\
    fst <$> meta1 !! clave_normalizacion = Some (py "true").
Proof.
  intros [H|H]%normalize_database_Ok.
  - destruct H as (t & pas & meta & Ht & Hc & Hpas & Hmeta & Hflag & _ & ->). eauto 10.
  - destruct H as (t & t1 & pas0 & meta & _ & _ & _ & _ & _ & _ & _ & _ & ->).
    simpl. split; [done|]. split; [eauto|]. eexists. split; [done|].
    by rewrite lookup_insert_eq.
Qed.

Lemma configurada_idx db :
  configurada db -> is_Some (indices db !! py "idx_principio_activo").
Proof. intros (_ & _ & _ & Hidx). by apply Forall_cons in Hidx as [? _]. Qed.

End Lifecycle.

(** X11. The status of the optimization through its life cycle. Once
    [setup_optimization_tables] and then [normalize_database] have returned,
    [get_optimization_status] reports the tables created, the database
    normalized, the indexes created and the system ready for fast search.
    Between the two, on a store that had no metadata table before the
    setup, the system is not ready and [database_normalized] is Python's
    [None], not [False]: no row of the metadata table was fetched. *)
Theorem get_optimization_status_life_cycle now db u db0 st db1 :
  setup_optimization_tables db = (Ok u, db0) ->
  normalize_database now db0 = (Ok st, db1) ->
  OptimizationStatus.get_optimization_status db1
  = (Ok (OptimizationStatus.OptimizationStatus true (Some true) true true), db1) /\
  (metadatos_sistema db = None ->
   OptimizationStatus.get_optimization_status db0
   = (Ok (OptimizationStatus.OptimizationStatus true None true false), db0)).
Proof.
  intros Hsetup Hpass.
  pose proof (setup_Ok_configurada _ _ _ Hsetup) as Hconf.
  pose proof (configurada_idx _ Hconf) as Hidx.
  split.
  - destruct (normalize_database_Ok_flag _ _ _ _ Hpass)
      as (Hind & [pas1 Hpas1] & meta1 & Hmeta1 & Hflag).
    rewrite (get_optimization_status_eq db1 pas1 meta1) by (by rewrite ?Hind).
    rewrite Hflag. reflexivity.
  - intros Hnone. destruct Hconf as (_ & [pas0 Hpas0] & _ & _).
    assert (Hmeta0 : metadatos_sistema db0 = Some ∅).
    { rewrite setup_unfold in Hsetup.
      pose proof (for_each_index_keeps indices_optimizados (tras_tablas (tras_alter db)))
        as (_ & _ & H3 & _).
      rewrite Hsetup in H3. simpl in H3. rewrite H3.
      destruct (tras_alter_keeps db) as (_ & -> & _). by rewrite Hnone. }
    rewrite (get_optimization_status_eq db0 pas0 ∅) by done.
    by rewrite lookup_empty.
Qed.

Section InspectorAfterPass.

Import Inspector.

Local Open Scope Z_scope.

Lemma optimization_indexes_exist_idx db :
  is_Some (indices db !! py "idx_principio_activo") ->
  optimization_indexes_exist (check_normalization_status db) = true.
Proof.
  intros [cols Hidx]. unfold check_normalization_status. simpl.
  apply bool_decide_eq_true_2. apply Exists_exists.
  exists (py "idx_principio_activo"). split; [|by vm_compute].
  apply list_elem_of_fmap. exists (py "idx_principio_activo", cols). split; [done|].
  by apply elem_of_map_to_list.
Qed.

Lemma recommendations_after_pass s :
  normalization_tables_exist s = true ->
  normalization_completed s = true ->
  optimization_indexes_exist s = true ->
  recommendations s
  = (if 0 <? medicamentos_without_normalization s
     then [NormalizarRestantes (medicamentos_without_normalization s)] else [])
    ++ (if active_ingredients_found s =? 0 then [GenerarTabla] else []).
Proof.
  intros H1 H2 H3. unfold recommendations. rewrite H1, H2, H3. simpl.
  unfold append_if. by destruct (0 <? _), (_ =? 0).
Qed.

End InspectorAfterPass.

(** X12. The inspection report after the optimization has run. Once
    [setup_optimization_tables] and then [normalize_database] have returned,
    the inspector finds the normalization tables, the completion flag and
    the optimization indexes, and counts as many active ingredients as the
    pass reports; its recommendations are at most two: to normalize the
    records whose canonical ingredient is empty, when there are some, and to
    generate the group table, when it is empty. It never recommends to
    create the tables, to run the normalization or to create the indexes. *)
Theorem get_inspection_report_after_pass now db u db0 st db1 :
  setup_optimization_tables db = (Ok u, db0) ->
  normalize_database now db0 = (Ok st, db1) ->
  let s := Inspector.check_normalization_status db1 in
  Inspector.normalization_tables_exist s = true /\
  Inspector.normalization_completed s = true /\
  Inspector.optimization_indexes_exist s = true /\
  Inspector.active_ingredients_found s = principios_activos_encontrados st /\
  Inspector.r_recommendations (Inspector.get_inspection_report db1)
  = (if (0 <? Inspector.medicamentos_without_normalization s)%Z
     then [Inspector.NormalizarRestantes (Inspector.medicamentos_without_normalization s)]
     else [])
    ++ (if (Inspector.active_ingredients_found s =? 0)%Z
        then [Inspector.GenerarTabla] else []).
Proof.
  intros Hsetup Hpass s.
  pose proof (configurada_idx _ (setup_Ok_configurada _ _ _ Hsetup)) as Hidx.
  destruct (normalize_database_Ok_flag _ _ _ _ Hpass)
    as (Hind & [pas1 Hpas1] & meta1 & Hmeta1 & Hflag).
  assert (H1 : Inspector.normalization_tables_exist s = true).
  { subst s. unfold Inspector.check_normalization_status. simpl.
    rewrite Hpas1, Hmeta1. by rewrite !bool_decide_eq_true_2 by eauto. }
  assert (H2 : Inspector.normalization_completed s = true).
  { subst s. unfold Inspector.check_normalization_status. simpl. rewrite Hmeta1.
    destruct (meta1 !! clave_normalizacion) as [[v f]|]; [|done].
    simpl in *. apply bool_decide_eq_true_2. congruence. }
  assert (H3 : Inspector.optimization_indexes_exist s = true).
  { apply optimization_indexes_exist_idx. by rewrite Hind. }
  assert (H4 : Inspector.active_ingredients_found s = principios_activos_encontrados st).
  { subst s. unfold Inspector.check_normalization_status. simpl. rewrite Hpas1.
    apply normalize_database_Ok in Hpass as [H|H].
    - destruct H as (t & pas & meta & _ & _ & Hpas & _ & _ & -> & ->).
      rewrite Hpas in Hpas1. by inversion Hpas1.
    - destruct H as (t & t1 & pas0 & meta & _ & _ & _ & _ & _ & _ & _ & -> & ->).
      simpl in Hpas1. inversion Hpas1. simpl. by rewrite length_filas_pa. }
  repeat (split; [done|]).
  unfold Inspector.get_inspection_report. simpl.
  by apply recommendations_after_pass.
Qed.

(** ** The reports compared *)

Section Reports.

Import Inspector.

Local Open Scope Z_scope.

(** With no row in the catalogue the coverage is zero. *)
Lemma normalization_percent_zero db :
  (count_all db =? 0) = true ->
  QuickCheck.normalization_percent db = PyFloat.of_Z 0.
Proof.
  intros H. apply Z.eqb_eq in H. unfold QuickCheck.normalization_percent.
  rewrite H. by destruct (has_normalization_column db).
Qed.

End Reports.

(** X16. The two status reports agree. On a store with the catalogue table,
    the quick checker and the inspector count the same normalized records
    and the same group rows; the total of the quick checker is the sum of
    the normalized and the not normalized records of the inspector when the
    catalogue has the derived column, and without that column both reports
    count no normalized record and the inspector counts none as lacking
    normalization. *)
Theorem status_reports_agree db t :
  medicamentos db = Some t ->
  exists r,
    QuickCheck.quick_status true db = QuickCheck.Checked r /\
    let s := Inspector.check_normalization_status db in
    QuickCheck.normalized_medications r = Inspector.medicamentos_normalized s /\
    QuickCheck.unique_ingredients r = Inspector.active_ingredients_found s /\
    (Inspector.normalization_tables_exist s = true ->
     QuickCheck.optimization_table_exists r = true) /\
    (has_column t col_principio = true ->
     QuickCheck.total_medications r
     = (Inspector.medicamentos_normalized s
        + Inspector.medicamentos_without_normalization s)%Z) /\
    (has_column t col_principio = false ->
     Inspector.medicamentos_normalized s = 0%Z /\
     Inspector.medicamentos_without_normalization s = 0%Z).
Proof.
  intros Ht. unfold QuickCheck.quick_status. cbn [negb]. rewrite Ht.
  eexists. split; [reflexivity|].
  cbn [QuickCheck.normalized_medications QuickCheck.unique_ingredients
       QuickCheck.optimization_table_exists QuickCheck.total_medications].
  unfold Inspector.check_normalization_status, QuickCheck.normalized_count.
  cbn [Inspector.medicamentos_normalized Inspector.active_ingredients_found
       Inspector.normalization_tables_exist
       Inspector.medicamentos_without_normalization].
  assert (Hcol : Inspector.has_normalization_column db = has_column t col_principio).
  { unfold Inspector.has_normalization_column. by rewrite Ht. }
  rewrite Hcol. split; [done|]. split; [done|]. split; [|split].
  - by intros [? _]%andb_true_iff.
  - intros ->. rewrite (count_normalized_eq db t Ht), (count_all_eq db t Ht). lia.
  - by intros ->.
Qed.

(** X17. The two readiness checks. [is_ready] of the quick checker answers
    true exactly when [IMSSModule.is_ready] does and the group table exists:
    the check of the IMSS module does not look at the group table, and may
    answer [IMSS_READY] on a store where the fast search has no table to
    read. The IMSS module answers true with the code [IMSS_READY] and with
    no other. *)
Theorem is_ready_agree file_exists db :
  QuickCheckSteps.is_ready file_exists db
  = (IMSSModule.is_ready file_exists db).1
    && bool_decide (is_Some (principios_activos db)) /\
  ((IMSSModule.is_ready file_exists db).1 = true
   <-> (IMSSModule.is_ready file_exists db).2 = IMSSModule.IMSS_READY).
Proof.
  unfold QuickCheckSteps.is_ready, IMSSModule.is_ready, QuickCheck.quick_status.
  destruct file_exists; cbn [negb]; [|done].
  destruct (medicamentos db) as [t|] eqn:Ht; [|done].
  cbn [QuickCheck.ready_for_use].
  destruct (Inspector.count_all db =? 0)%Z eqn:Hz.
  - rewrite (normalization_percent_zero db Hz). split; [by vm_compute|done].
  - unfold QuickCheck.normalization_percent, QuickCheck.normalized_count.
    destruct (Inspector.has_normalization_column db); [|by vm_compute].
    by destruct (PyFloat.gt _ (PyFloat.of_Z 50)).
Qed.

(** X18. The suggestions for an empty catalogue. On a store whose catalogue
    table has no row, the suggestions drawn from [quick_status] are to
    synchronize the documents and to run the initial normalization,
    followed, when the group table is missing, by the suggestion to create
    it; the system is never said to be ready. *)
Theorem suggest_next_steps_empty db t :
  medicamentos db = Some t ->
  filas t = [] ->
  QuickCheckSteps.suggest_next_steps (QuickCheck.quick_status true db)
  = [QuickCheckSteps.BaseVacia; QuickCheckSteps.NormalizacionInicial]
    ++ (if bool_decide (is_Some (principios_activos db)) then []
        else [QuickCheckSteps.CrearTablaPrincipios]).
Proof.
  intros Ht Hf.
  assert (Hz : (Inspector.count_all db =? 0)%Z = true).
  { rewrite (count_all_eq db t Ht), Hf. done. }
  unfold QuickCheck.quick_status. cbn [negb]. rewrite Ht.
  unfold QuickCheckSteps.suggest_next_steps.
  cbn [QuickCheck.total_medications QuickCheck.normalization_percentage
       QuickCheck.optimization_table_exists].
  rewrite (normalization_percent_zero db Hz), Hz.
  by destruct (bool_decide (is_Some (principios_activos db))); vm_compute.
Qed.

(** ** Samples *)

Section Samples.

Import InspectorSamples.




End Samples.


(** ** The canonical token *)

Import Forma.

Section Shape.

Ltac rangos :=
  unfold is_word, is_space, is_digit, in_range in *;
  repeat rewrite ?orb_true_iff, ?orb_false_iff, ?andb_true_iff, ?andb_false_iff,
    ?N.leb_le, ?N.leb_gt, ?N.eqb_eq, ?N.eqb_neq in *.

Lemma is_word_not_space c : is_word c = true -> is_space c = false.
Proof. intros H. destruct (is_space c) eqn:E; [|done]. exfalso. rangos. lia. Qed.

Lemma is_space_32 : is_space 32 = true.
Proof. reflexivity. Qed.






(** A run of white space is matched to its end. *)
Lemma match_at_spaces prev c s :
  match_at spaces prev (c :: s)
  = if is_space c then match_at spaces prev (c :: s) else None.
Proof. unfold match_at, spaces. cbn [matches]. by destruct (is_space c). Qed.







Lemma last_rev_head {A} (l : list A) : last (rev l) = head l.
Proof. destruct l as [|c l]; [done|]. simpl. apply last_snoc. Qed.

Lemma head_rev_last {A} (l : list A) : head (rev l) = last l.
Proof. rewrite <- (rev_involutive l) at 2. by rewrite last_rev_head. Qed.













End Shape.


(** ** Rankings and examples of the inspector *)

Import Ejemplos.

Section Ranking.

Import Inspector.

Local Open Scope Z_scope.

Lemma StronglySorted_take {A} (R : relation A) n (l : list A) :
  StronglySorted R l -> StronglySorted R (take n l).
Proof.
  intros H. rewrite <- (take_drop n l) in H. by apply StronglySorted_app_1_l in H.
Qed.

(** The first rows of a ranking: a row is among them, or it counts no more
    than any of them. *)
Lemma take_order_by_desc {A} (total : A -> Z) n (l : list A) x :
  x ∈ l ->
  x ∈ take n (order_by_desc total l) \/
  Forall (fun y => total x <= total y) (take n (order_by_desc total l)).
Proof.
  intros Hx. apply (elem_of_order_by_desc total) in Hx.
  pose proof (order_by_desc_StronglySorted total l) as Hs.
  rewrite <- (take_drop n (order_by_desc total l)) in Hx, Hs.
  apply elem_of_app in Hx as [Hx|Hx]; [by left|]. right.
  apply Forall_forall. intros y Hy.
  exact (StronglySorted_app_1_elem_of _ _ _ _ _ Hs Hy Hx).
Qed.

End Ranking.

(** X13. The rankings of the inspector. [analyze_active_ingredients] counts
    the rows of the group table; its top list holds ten rows, or all when
    there are fewer, by descending count, and every group row is in the list
    or counts no more than each row of the list; its list of ingredients
    with several products holds at most twenty rows, by descending count,
    each of a group row with a count above one. *)
Theorem analyze_active_ingredients_ranking db :
  let pas := default [] (principios_activos db) in
  let a := Inspector.analyze_active_ingredients db in
  Inspector.total_unique_ingredients a = Z.of_nat (length pas) /\
  length (Inspector.top_ingredients a) = Nat.min 10 (length pas) /\
  StronglySorted (fun x y : str * Z * list str => (y.1.2 <= x.1.2)%Z)
    (Inspector.top_ingredients a) /\
  (forall pa, pa ∈ pas ->
     (pa_principio_activo_normalizado pa, total_medicamentos pa,
      split_if (py ",") (grupos_terapeuticos pa)) ∈ Inspector.top_ingredients a \/
     Forall (fun x : str * Z * list str => (total_medicamentos pa <= x.1.2)%Z)
       (Inspector.top_ingredients a)) /\
  (length (Inspector.ingredients_with_multiple_products a) <= 20)%nat /\
  StronglySorted (fun x y : str * Z => (y.2 <= x.2)%Z)
    (Inspector.ingredients_with_multiple_products a) /\
  (forall y, y ∈ Inspector.ingredients_with_multiple_products a ->
     (1 < y.2)%Z /\
     exists pa, pa ∈ pas /\
       y = (pa_principio_activo_normalizado pa, total_medicamentos pa)).
Proof.
  intros pas a. subst a. unfold Inspector.analyze_active_ingredients.
  fold pas. cbn [Inspector.total_unique_ingredients Inspector.top_ingredients
                 Inspector.ingredients_with_multiple_products].
  split; [done|]. split; [|split; [|split; [|split; [|split]]]].
  - rewrite length_map, length_take.
    by rewrite (Permutation_length (order_by_desc_Permutation _ _)).
  - change (map ?f ?l) with (f <$> l).
    eapply StronglySorted_fmap;
      [|apply StronglySorted_take, order_by_desc_StronglySorted].
    intros x y Hxy. exact Hxy.
  - intros pa Hpa.
    destruct (take_order_by_desc total_medicamentos 10 pas pa Hpa) as [H|H].
    + left. change (map ?f ?l) with (f <$> l). apply list_elem_of_fmap. by exists pa.
    + right. change (map ?f ?l) with (f <$> l). apply Forall_fmap.
      eapply Forall_impl; [exact H|]. by intros y Hy.
  - rewrite length_map, length_take. lia.
  - change (map ?f ?l) with (f <$> l).
    eapply StronglySorted_fmap;
      [|apply StronglySorted_take, order_by_desc_StronglySorted].
    intros x y Hxy. exact Hxy.
  - intros y Hy. change (map ?f ?l) with (f <$> l) in Hy.
    apply list_elem_of_fmap in Hy as (pa & -> & Hpa).
    apply list_elem_of_lookup_1 in Hpa as [i Hi].
    apply lookup_take_Some in Hi as [Hi _].
    apply list_elem_of_lookup_2, elem_of_order_by_desc, list_elem_of_filter in Hi
      as [Hgt Hpa].
    split; [exact Hgt|]. by exists pa.
Qed.

Section Examples.

Import Inspector.

Lemma find_normalization_examples_eq random search_term db :
  (forall l, random l ≡ₚ l) ->
  find_normalization_examples random search_term db
  = ejemplo_de
    <$> (if truthy search_term
         then take 20 (order_by_principio
                         (filter (coincide search_term) (normalizados db)))
         else take 15 (random (normalizados db))).
Proof.
  intros Hrandom. pose proof (Hrandom []) as Hnil. apply Permutation_nil_r in Hnil.
  unfold find_normalization_examples, normalizados.
  destruct (medicamentos db) as [t|].
  - destruct (has_column t col_principio); [reflexivity|].
    destruct (truthy search_term); [done|]. by rewrite Hnil.
  - destruct (truthy search_term); [done|]. by rewrite Hnil.
Qed.

Lemma elem_of_take_elem {A} n (l : list A) x : x ∈ take n l -> x ∈ l.
Proof.
  intros [i Hi]%list_elem_of_lookup_1. apply lookup_take_Some in Hi as [Hi _].
  by eapply list_elem_of_lookup_2.
Qed.

Lemma order_by_principio_Permutation l : order_by_principio l ≡ₚ l.
Proof. unfold order_by_principio. apply merge_sort_Permutation. Qed.

Lemma elem_of_normalizados db m :
  m ∈ normalizados db -> exists token, principio_activo_normalizado m = Some token /\ token <> [].
Proof.
  unfold normalizados. destruct (medicamentos db) as [t|]; [|by intros ?%elem_of_nil].
  destruct (has_column t col_principio); [|by intros ?%elem_of_nil].
  intros [Hne _]%list_elem_of_filter.
  destruct (principio_activo_normalizado m) as [token|]; [|done].
  exists token. split; [done|]. by apply not_empty_Some.
Qed.

End Examples.

(** X14. The examples of the inspector. Given a term,
    [find_normalization_examples] returns at most twenty examples, each of a
    record with a canonical ingredient that is not empty and that holds the
    term in its description, its generic name or its canonical ingredient,
    and it returns all such records when they are at most twenty. Given no
    term it returns at most fifteen examples, each of a record with a
    canonical ingredient that is not empty, and all of them when they are at
    most fifteen. [random] is the order of [ORDER BY RANDOM()], a
    rearrangement of the rows. *)
Theorem find_normalization_examples_bounds random search_term db :
  (forall l, random l ≡ₚ l) ->
  let ex := Inspector.find_normalization_examples random search_term db in
  let candidatos :=
    if truthy search_term
    then filter (Ejemplos.coincide search_term) (Ejemplos.normalizados db)
    else Ejemplos.normalizados db in
  let limite := if truthy search_term then 20%nat else 15%nat in
  length ex = Nat.min limite (length candidatos) /\
  (forall e, e ∈ ex ->
     Inspector.normalized_ingredient e <> [] /\
     exists m, m ∈ candidatos /\ e = Ejemplos.ejemplo_de m) /\
  ((length candidatos <= limite)%nat ->
   forall m, m ∈ candidatos -> Ejemplos.ejemplo_de m ∈ ex).
Proof.
  intros Hrandom ex candidatos limite. subst ex candidatos limite.
  rewrite find_normalization_examples_eq by done.
  set (rows := if truthy search_term then _ else _).
  set (candidatos := if truthy search_term then filter _ _ else _).
  set (limite := if truthy search_term then 20%nat else 15%nat).
  assert (Hrows : exists l, l ≡ₚ candidatos /\ rows = take limite l).
  { subst rows candidatos limite. destruct (truthy search_term).
    - eexists. split; [apply order_by_principio_Permutation|done].
    - eexists. split; [apply Hrandom|done]. }
  destruct Hrows as (l & Hperm & ->).
  assert (Hcand : forall m, m ∈ candidatos -> m ∈ normalizados db).
  { subst candidatos. destruct (truthy search_term); [|done].
    by intros m [_ ?]%list_elem_of_filter. }
  split; [|split].
  - by rewrite length_fmap, length_take, Hperm.
  - intros e (m & -> & Hm)%list_elem_of_fmap.
    apply elem_of_take_elem in Hm. rewrite Hperm in Hm. split; [|by exists m].
    destruct (elem_of_normalizados db m (Hcand m Hm)) as (token & Htok & Hne).
    unfold ejemplo_de. simpl. by rewrite Htok.
  - intros Hlen m Hm. apply list_elem_of_fmap. exists m. split; [done|].
    rewrite take_ge by (by rewrite Hperm). by rewrite Hperm.
Qed.

(** ** The optimization step of a synchronization *)

Import IMSSOptimizations.

Section Sync.

Local Open Scope cursor_scope.



End Sync.


(** X5. The completion flag outlives the records it was set for. After a
    pass that ran to completion, whatever records the catalogue comes to
    hold, [normalize_database] finds the flag, returns [ya_completada] and
    writes nothing; a record whose canonical ingredient is empty or NULL,
    as the ingestion leaves it, stays so and belongs to the group of no
    entry that [find_similar_medications] returns. *)
Theorem normalize_database_flag_outlives now now' db st db1 rows :
  normalize_database now db = (Ok st, db1) ->
  estado st = py "completada" ->
  let db2 := IMSSOptimizations.con_filas rows db1 in
  (exists st2,
      normalize_database now' db2 = (Ok st2, db2) /\
      estado st2 = py "ya_completada") /\
  (forall m search_term res db3 e,
      m ∈ rows ->
      not_empty (principio_activo_normalizado m) = false ->
      find_similar_medications search_term db2 = (Ok res, db3) ->
      e ∈ res ->
      m ∉ miembros (s_principio_activo e) rows).
Proof.
  intros H Hest db2.
  pose proof (normalize_database_Ok_schema _ _ _ _ H) as (Hcat & _ & _).
  apply normalize_database_Ok in H as [H|H].
  { destruct H as (t & pas & meta & _ & _ & _ & _ & _ & -> & _). discriminate. }
  destruct H as (t & t1 & pas0 & meta & _ & _ & _ & _ & Hc1 & _ & _ & _ & Hdb1).
  assert (Ht2 : medicamentos db2 = Some (TablaMedicamentos (columnas t1) rows)).
  { subst db2 db1. reflexivity. }
  assert (Hc2 : has_column (TablaMedicamentos (columnas t1) rows) col_principio = true).
  { by rewrite (has_column_columnas t1). }
  split.
  - eexists. split.
    + eapply normalize_database_flag_set; [exact Ht2|exact Hc2|..].
      * subst db2 db1. reflexivity.
      * subst db2 db1. reflexivity.
      * by rewrite lookup_insert_eq.
    + reflexivity.
  - intros m search_term res db3 e Hm Hempty Hfind He Hin.
    apply elem_of_miembros in Hin as [_ Hp].
    destruct (find_similar_medications_entry _ _ _ _ _ Hfind He)
      as (t' & pas' & pa & Ht' & Hpas' & Hpa & _ & ->).
    cbn [s_principio_activo] in Hp.
    assert (Hpas2 : principios_activos db2 = principios_activos db1) by done.
    rewrite Hpas2, Hdb1 in Hpas'. cbn [principios_activos] in Hpas'.
    inversion Hpas'; subst pas'; clear Hpas'.
    apply elem_of_filas_pa_grupos in Hpa as (token & fecha & Htok & ->).
    apply elem_of_tokens in Htok as [Hne _]. cbn in Hp.
    rewrite Hp in Hempty. apply not_empty_Some in Hne. congruence.
Qed.

(** ** The further properties at work on the example stores *)

(** The pass on the example catalogue, row by row. *)
Lemma normalize_database_rows_example :
  let t := TablaMedicamentos Escenario.columnas_catalogo Escenario.registros in
  normalize_database Escenario.reloj Escenario.preparado
  = (Ok (Estadisticas 4 3 (py "completada")), Escenario.normalizado Escenario.reloj) /\
  medicamentos Escenario.preparado = Some t /\
  exists t1,
    medicamentos (Escenario.normalizado Escenario.reloj) = Some t1 /\
    columnas t1 = columnas t /\
    indices (Escenario.normalizado Escenario.reloj) = indices Escenario.preparado /\
    Pasada.datos <$> filas t1 = Pasada.datos <$> filas t /\
    (NoDup (clave <$> filas t) -> filas t1 = Pasada.canonico <$> filas t).
Proof.
  intros t.
  assert (H : normalize_database Escenario.reloj Escenario.preparado
              = (Ok (Estadisticas 4 3 (py "completada")),
                 Escenario.normalizado Escenario.reloj))
    by (vm_compute; reflexivity).
  assert (Ht : medicamentos Escenario.preparado = Some t)
    by (vm_compute; reflexivity).
  split; [exact H|]. split; [exact Ht|].
  exact (normalize_database_rows Escenario.reloj _ _ _ t H eq_refl Ht).
Defined.

(** The statistics of the pass on the example catalogue. *)
Lemma normalize_database_statistics_example :
  normalize_database Escenario.reloj Escenario.preparado
  = (Ok (Estadisticas 4 3 (py "completada")), Escenario.normalizado Escenario.reloj) /\
  exists t1 pas1,
    medicamentos (Escenario.normalizado Escenario.reloj) = Some t1 /\
    principios_activos (Escenario.normalizado Escenario.reloj) = Some pas1 /\
    4%Z = Z.of_nat (length (filas t1)) /\
    3%Z = Z.of_nat (length pas1) /\
    length pas1 = length (tokens (filas t1)) /\
    Pasada.suma_totales pas1
    = Z.of_nat (length (filter (fun m => not_empty (principio_activo_normalizado m) = true)
                          (filas t1))) /\
    (Pasada.suma_totales pas1 <= 4)%Z.
Proof.
  assert (H : normalize_database Escenario.reloj Escenario.preparado
              = (Ok (Estadisticas 4 3 (py "completada")),
                 Escenario.normalizado Escenario.reloj))
    by (vm_compute; reflexivity).
  split; [exact H|].
  exact (normalize_database_statistics Escenario.reloj _ _ _ H eq_refl).
Defined.

(** The search for "ARA" on the normalized example: the token PARACETAMOL
    contains it. *)
Lemma find_similar_medications_complete_example :
  let db := Escenario.normalizado Escenario.reloj in
  let pa := PrincipioActivo (py "PARACETAMOL")
              (Some (py "PARACETAMOL. TABLETA,PARACETAMOL. TABLETA 500")) 2
              (Some (py "Analgesia,Analgesia")) (Escenario.reloj 0%nat) in
  exists t pas,
    medicamentos db = Some t /\
    has_column t col_principio = true /\
    principios_activos db = Some pas /\
    pa ∈ pas /\
    miembros (pa_principio_activo_normalizado pa) (filas t) <> [] /\
    pa_principio_activo_normalizado pa
    = py "P" ++ normalize_active_ingredient [] (py "ara") ++ py "CETAMOL" /\
    exists res,
      find_similar_medications (py "ara") db = (Ok res, db) /\
      Busqueda.entrada (filas t) pa ∈ res.
Proof.
  intros db pa.
  destruct (medicamentos db) as [t|] eqn:Ht; [|by vm_compute in Ht].
  destruct (principios_activos db) as [pas|] eqn:Hpas; [|by vm_compute in Hpas].
  assert (Hc : has_column t col_principio = true).
  { vm_compute in Ht. inversion Ht; subst t. by vm_compute. }
  assert (Hpa : pa ∈ pas).
  { vm_compute in Hpas. inversion Hpas; subst pas. apply (bool_decide_unpack _).
    by vm_compute. }
  assert (Hms : miembros (pa_principio_activo_normalizado pa) (filas t) <> []).
  { vm_compute in Ht. inversion Ht; subst t. by vm_compute. }
  assert (Htok : pa_principio_activo_normalizado pa
                 = py "P" ++ normalize_active_ingredient [] (py "ara") ++ py "CETAMOL")
    by (vm_compute; reflexivity).
  exists t, pas. repeat (split; [done|]).
  exact (find_similar_medications_complete (py "ara") db t pas pa (py "P") (py "CETAMOL")
           Ht Hc Hpas Hpa Hms Htok).
Defined.

(** The search for "a" on the normalized example returns the three groups,
    the one of two records first. *)
Lemma find_similar_medications_ranked_example :
  exists res,
    find_similar_medications (py "a") (Escenario.normalizado Escenario.reloj)
    = (Ok res, Escenario.normalizado Escenario.reloj) /\
    s_total_medicamentos <$> res = [2; 1; 1]%Z /\
    StronglySorted
      (fun a b => (s_total_medicamentos b <= s_total_medicamentos a)%Z) res.
Proof.
  eassert (H : find_similar_medications (py "a") (Escenario.normalizado Escenario.reloj)
               = (Ok _, Escenario.normalizado Escenario.reloj))
    by (vm_compute; reflexivity).
  eexists. split; [exact H|]. split; [vm_compute; reflexivity|].
  exact (proj2 (find_similar_medications_ranked _ _ _ _ H)).
Defined.

(** A term made of a form noun and a quantity has an empty canonical form
    and returns the three groups of the normalized example. *)
Lemma find_similar_medications_empty_term_example :
  let db := Escenario.normalizado Escenario.reloj in
  normalize_active_ingredient [] (py "tableta 500 mg") = [] /\
  exists t pas,
    medicamentos db = Some t /\
    has_column t col_principio = true /\
    principios_activos db = Some pas /\
    length pas = 3%nat /\
    exists res,
      find_similar_medications (py "tableta 500 mg") db = (Ok res, db) /\
      res ≡ₚ Busqueda.entrada (filas t)
             <$> filter (fun pa => miembros (pa_principio_activo_normalizado pa) (filas t) <> [])
                   pas.
Proof.
  intros db.
  assert (Hterm : normalize_active_ingredient [] (py "tableta 500 mg") = [])
    by (vm_compute; reflexivity).
  destruct (medicamentos db) as [t|] eqn:Ht; [|by vm_compute in Ht].
  destruct (principios_activos db) as [pas|] eqn:Hpas; [|by vm_compute in Hpas].
  assert (Hc : has_column t col_principio = true).
  { vm_compute in Ht. inversion Ht; subst t. by vm_compute. }
  assert (Hlen : length pas = 3%nat).
  { vm_compute in Hpas. by inversion Hpas; subst pas. }
  split; [exact Hterm|]. exists t, pas. repeat (split; [done|]).
  exact (find_similar_medications_empty_term (py "tableta 500 mg") db t pas
           Ht Hc Hpas Hterm).
Defined.

(** The fourth record of the example has no generic name; the search for
    its description finds it. *)
Lemma find_similar_medications_own_name_example :
  let t := TablaMedicamentos Escenario.columnas_catalogo Escenario.registros in
  let m := Medicamento (py "010.000.5165.00") Escenario.metformina (Some [])
             (py "Endocrinologia") (Some []) in
  normalize_database Escenario.reloj Escenario.preparado
  = (Ok (Estadisticas 4 3 (py "completada")), Escenario.normalizado Escenario.reloj) /\
  medicamentos Escenario.preparado = Some t /\
  NoDup (clave <$> filas t) /\
  m ∈ filas t /\
  Busqueda.texto_base m = Escenario.metformina /\
  normalize_active_ingredient [] (Busqueda.texto_base m) = py "METFORMINA" /\
  exists res e,
    find_similar_medications (Busqueda.texto_base m) (Escenario.normalizado Escenario.reloj)
    = (Ok res, Escenario.normalizado Escenario.reloj) /\
    e ∈ res /\
    s_principio_activo e = normalize_active_ingredient [] (Busqueda.texto_base m) /\
    (1 <= s_total_medicamentos e)%Z /\
    (Forall (fun m' => clave m' <> [] /\ contains (py "|") (clave m') = false) (filas t) ->
     clave m ∈ s_claves e).
Proof.
  intros t m.
  assert (H : normalize_database Escenario.reloj Escenario.preparado
              = (Ok (Estadisticas 4 3 (py "completada")),
                 Escenario.normalizado Escenario.reloj))
    by (vm_compute; reflexivity).
  assert (Ht : medicamentos Escenario.preparado = Some t)
    by (vm_compute; reflexivity).
  assert (Hnd : NoDup (clave <$> filas t))
    by (apply (bool_decide_unpack _); vm_compute; reflexivity).
  assert (Hm : m ∈ filas t)
    by (apply (bool_decide_unpack _); vm_compute; reflexivity).
  assert (Hcan : normalize_active_ingredient [] (Busqueda.texto_base m) = py "METFORMINA")
    by (vm_compute; reflexivity).
  assert (Hne : normalize_active_ingredient [] (Busqueda.texto_base m) <> [])
    by (rewrite Hcan; discriminate).
  repeat (split; [done|]).
  exact (find_similar_medications_own_name Escenario.reloj _ _ _ t m H eq_refl Ht Hnd Hm Hne).
Defined.

(** The status of the optimization on the example catalogue, after the
    setup and after the pass. *)
Lemma get_optimization_status_life_cycle_example :
  setup_optimization_tables Escenario.catalogo = (Ok tt, Escenario.preparado) /\
  normalize_database Escenario.reloj Escenario.preparado
  = (Ok (Estadisticas 4 3 (py "completada")), Escenario.normalizado Escenario.reloj) /\
  OptimizationStatus.get_optimization_status (Escenario.normalizado Escenario.reloj)
  = (Ok (OptimizationStatus.OptimizationStatus true (Some true) true true),
     Escenario.normalizado Escenario.reloj) /\
  (metadatos_sistema Escenario.catalogo = None ->
   OptimizationStatus.get_optimization_status Escenario.preparado
   = (Ok (OptimizationStatus.OptimizationStatus true None true false),
      Escenario.preparado)).
Proof.
  assert (H0 : setup_optimization_tables Escenario.catalogo = (Ok tt, Escenario.preparado))
    by (vm_compute; reflexivity).
  assert (H : normalize_database Escenario.reloj Escenario.preparado
              = (Ok (Estadisticas 4 3 (py "completada")),
                 Escenario.normalizado Escenario.reloj))
    by (vm_compute; reflexivity).
  split; [exact H0|]. split; [exact H|].
  exact (get_optimization_status_life_cycle Escenario.reloj _ _ _ _ _ H0 H).
Defined.

(** The inspection report of the normalized example: no recommendation is
    left. *)
Lemma get_inspection_report_after_pass_example :
  setup_optimization_tables Escenario.catalogo = (Ok tt, Escenario.preparado) /\
  normalize_database Escenario.reloj Escenario.preparado
  = (Ok (Estadisticas 4 3 (py "completada")), Escenario.normalizado Escenario.reloj) /\
  Inspector.r_recommendations
    (Inspector.get_inspection_report (Escenario.normalizado Escenario.reloj)) = [] /\
  let s := Inspector.check_normalization_status (Escenario.normalizado Escenario.reloj) in
  Inspector.normalization_tables_exist s = true /\
  Inspector.normalization_completed s = true /\
  Inspector.optimization_indexes_exist s = true /\
  Inspector.active_ingredients_found s = 3%Z /\
  Inspector.r_recommendations
    (Inspector.get_inspection_report (Escenario.normalizado Escenario.reloj))
  = (if (0 <? Inspector.medicamentos_without_normalization s)%Z
     then [Inspector.NormalizarRestantes (Inspector.medicamentos_without_normalization s)]
     else [])
    ++ (if (Inspector.active_ingredients_found s =? 0)%Z
        then [Inspector.GenerarTabla] else []).
Proof.
  assert (H0 : setup_optimization_tables Escenario.catalogo = (Ok tt, Escenario.preparado))
    by (vm_compute; reflexivity).
  assert (H : normalize_database Escenario.reloj Escenario.preparado
              = (Ok (Estadisticas 4 3 (py "completada")),
                 Escenario.normalizado Escenario.reloj))
    by (vm_compute; reflexivity).
  split; [exact H0|]. split; [exact H|]. split; [vm_compute; reflexivity|].
  exact (get_inspection_report_after_pass Escenario.reloj _ _ _ _ _ H0 H).
Defined.

(** The two reports on the partly normalized catalogue: two of three
    records are normalized. *)
Lemma status_reports_agree_example :
  exists t,
    medicamentos Escenario.parcial = Some t /\
    has_column t col_principio = true /\
    exists r,
      QuickCheck.quick_status true Escenario.parcial = QuickCheck.Checked r /\
      QuickCheck.total_medications r = 3%Z /\
      let s := Inspector.check_normalization_status Escenario.parcial in
      QuickCheck.normalized_medications r = Inspector.medicamentos_normalized s /\
      QuickCheck.unique_ingredients r = Inspector.active_ingredients_found s /\
      (Inspector.normalization_tables_exist s = true ->
       QuickCheck.optimization_table_exists r = true) /\
      (has_column t col_principio = true ->
       QuickCheck.total_medications r
       = (Inspector.medicamentos_normalized s
          + Inspector.medicamentos_without_normalization s)%Z) /\
      (has_column t col_principio = false ->
       Inspector.medicamentos_normalized s = 0%Z /\
       Inspector.medicamentos_without_normalization s = 0%Z).
Proof.
  destruct (medicamentos Escenario.parcial) as [t|] eqn:Ht; [|by vm_compute in Ht].
  assert (Hc : has_column t col_principio = true).
  { vm_compute in Ht. inversion Ht; subst t. by vm_compute. }
  exists t. split; [done|]. split; [exact Hc|].
  destruct (status_reports_agree Escenario.parcial t Ht) as (r & Hr & Hrest).
  exists r. split; [exact Hr|]. split; [|exact Hrest].
  vm_compute in Hr. inversion Hr; subst r. reflexivity.
Defined.

(** The suggestions for the empty catalogue, which has no group table. *)
Lemma suggest_next_steps_empty_example :
  medicamentos Escenario.catalogo_vacio
  = Some (TablaMedicamentos Escenario.columnas_catalogo []) /\
  QuickCheckSteps.suggest_next_steps (QuickCheck.quick_status true Escenario.catalogo_vacio)
  = [QuickCheckSteps.BaseVacia; QuickCheckSteps.NormalizacionInicial;
     QuickCheckSteps.CrearTablaPrincipios].
Proof.
  assert (Ht : medicamentos Escenario.catalogo_vacio
               = Some (TablaMedicamentos Escenario.columnas_catalogo []))
    by reflexivity.
  split; [exact Ht|].
  exact (suggest_next_steps_empty Escenario.catalogo_vacio _ Ht eq_refl).
Defined.

(** The examples for the term "paracetamol" on the partly normalized
    catalogue, the rows being taken in their order. *)
Lemma find_normalization_examples_bounds_example :
  (forall l : list medicamento, (fun l => l) l ≡ₚ l) /\
  Inspector.find_normalization_examples (fun l => l) (py "paracetamol") Escenario.parcial
  = [Escenario.ejemplo_paracetamol] /\
  let ex := Inspector.find_normalization_examples (fun l => l) (py "paracetamol")
              Escenario.parcial in
  let candidatos :=
    if truthy (py "paracetamol")
    then filter (Ejemplos.coincide (py "paracetamol")) (Ejemplos.normalizados Escenario.parcial)
    else Ejemplos.normalizados Escenario.parcial in
  let limite := if truthy (py "paracetamol") then 20%nat else 15%nat in
  length ex = Nat.min limite (length candidatos) /\
  (forall e, e ∈ ex ->
     Inspector.normalized_ingredient e <> [] /\
     exists m, m ∈ candidatos /\ e = Ejemplos.ejemplo_de m) /\
  ((length candidatos <= limite)%nat ->
   forall m, m ∈ candidatos -> Ejemplos.ejemplo_de m ∈ ex).
Proof.
  assert (Hr : forall l : list medicamento, (fun l => l) l ≡ₚ l) by done.
  split; [exact Hr|]. split; [vm_compute; reflexivity|].
  exact (find_normalization_examples_bounds (fun l => l) (py "paracetamol")
           Escenario.parcial Hr).
Defined.

(** The second record of the normalized example is ingested again: the
    pass that follows writes nothing, and the search for "paracetamol"
    returns a group to which the record does not belong. *)
Lemma normalize_database_flag_outlives_example :
  let rows :=
    match medicamentos (Escenario.reingresado Escenario.reloj) with
    | Some t => filas t
    | None => []
    end in
  let db2 := IMSSOptimizations.con_filas rows (Escenario.normalizado Escenario.reloj) in
  normalize_database Escenario.reloj Escenario.preparado
  = (Ok (Estadisticas 4 3 (py "completada")), Escenario.normalizado Escenario.reloj) /\
  db2 = Escenario.reingresado Escenario.reloj /\
  (exists st2,
      normalize_database Escenario.reloj db2 = (Ok st2, db2) /\
      estado st2 = py "ya_completada") /\
  (forall m search_term res db3 e,
      m ∈ rows ->
      not_empty (principio_activo_normalizado m) = false ->
      find_similar_medications search_term db2 = (Ok res, db3) ->
      e ∈ res ->
      m ∉ miembros (s_principio_activo e) rows).
Proof.
  intros rows db2.
  assert (H : normalize_database Escenario.reloj Escenario.preparado
              = (Ok (Estadisticas 4 3 (py "completada")),
                 Escenario.normalizado Escenario.reloj))
    by (vm_compute; reflexivity).
  split; [exact H|]. split; [vm_compute; reflexivity|].
  exact (normalize_database_flag_outlives Escenario.reloj Escenario.reloj _ _ _ rows
           H eq_refl).
Defined.
